(** * stustapay: the user service ([stustapay/core/service/user.py])

    A shallow embedding of [UserService]: the SQL statements the service
    issues are functions on an explicit database state, the coroutines are
    computations in a state-and-exception monad over that state, and the
    decorators are higher-order functions wrapped around the bodies. *)

From Stdlib Require Import ZArith List String Ascii Bool Lia.
From Stdlib Require Import DecimalString DecimalNat.
Import ListNotations.
Open Scope string_scope.
Open Scope Z_scope.

(** ** Schema classes ([stustapay.core.schema]) *)

(** Modelled from the spec: the enumeration [Privilege] is declared in
    [stustapay/core/schema/user.py]; the service names its members [admin],
    [cashier] and [finanzorga], and the spec calls it a closed set. *)
Inductive Privilege : Type := admin | cashier | finanzorga.

Definition Privilege_eqb (p q : Privilege) : bool :=
  match p, q with
  | admin, admin | cashier, cashier | finanzorga, finanzorga => true
  | _, _ => false
  end.

(** Modelled from the spec: [AccountType] is declared in
    [stustapay/core/schema/account.py]; the service only creates accounts of
    type [internal], every other member is kept by its stored value. *)
Inductive AccountType : Type :=
  | internal
  | other_account_type (value : string).

(** [UserWithoutId]: the fields are the ones the service reads and the
    keyword arguments it builds the object from; the optional ones default
    to [None]. [privileges] is a Python list. *)
Record UserWithoutId : Type := mkUserWithoutId {
  name : string;
  description : option string;
  privileges : list Privilege;
  user_tag_id : option Z;
  transport_account_id : option Z;
  cashier_account_id : option Z
}.

(** [User] extends [UserWithoutId] by [id]; a [User] is passed wherever a
    [UserWithoutId] is expected ([_update_user] in the promotions). *)
Record User : Type := mkUser {
  id : Z;
  without_id :> UserWithoutId
}.

(** [NewUser]: what a terminal supplies, a display name and the scanned tag
    uid. *)
Record NewUser : Type := mkNewUser {
  new_name : string;
  user_tag : Z
}.

(** [UserTokenMetadata] of the auth service. *)
Record UserTokenMetadata : Type := mkUserTokenMetadata {
  token_user_id : Z;
  token_session_id : Z
}.

(** [UserLoginSuccess]. *)
Record UserLoginSuccess : Type := mkUserLoginSuccess {
  user : User;
  token : string
}.

(** ** The database *)

(** A row of table [usr], with the columns the insert statement names. *)
Record usr_row : Type := mk_usr_row {
  usr_id : Z;
  usr_name : string;
  usr_description : option string;
  usr_password : option string;
  usr_user_tag_id : option Z;
  usr_transport_account_id : option Z;
  usr_cashier_account_id : option Z
}.

Record user_tag_row : Type := mk_user_tag_row {
  tag_id : Z;
  tag_uid : Z
}.

Record account_row : Type := mk_account_row {
  account_id : Z;
  account_type : AccountType;
  account_name : string
}.

Record usr_session_row : Type := mk_usr_session_row {
  session_id : Z;
  session_usr : Z
}.

(** Modelled from the spec: the table declarations are not part of the
    service. Tables are lists of rows in insertion order, the [id] columns
    the statements obtain with [returning id] are drawn from one counter per
    table, and [usr_privs] holds one [(usr, priv)] row per insert. A
    statement changes the table it names and no other: keys, constraints and
    cascades belong to the declarations. *)
Record DB : Type := mkDB {
  usr : list usr_row;
  usr_privs : list (Z * Privilege);
  user_tag_table : list user_tag_row;
  account : list account_row;
  usr_session : list usr_session_row;
  usr_id_seq : Z;
  account_id_seq : Z;
  usr_session_id_seq : Z
}.

(** A row of the view [usr_with_privileges]: the columns of [usr] and the
    privileges of that user. *)
Record usr_with_privileges_row : Type := mk_view_row {
  view_usr : usr_row;
  view_privileges : list Privilege
}.

Definition privileges_of (db : DB) (user_id : Z) : list Privilege :=
  map snd (filter (fun p => fst p =? user_id) (usr_privs db)).

(** Modelled from the spec: the view [usr_with_privileges] is "the row
    joined with its privilege set", one view row per row of [usr]. *)
Definition usr_with_privileges (db : DB) : list usr_with_privileges_row :=
  map (fun r => mk_view_row r (privileges_of db (usr_id r))) (usr db).

(** [User.parse_obj(row)]: the columns that are fields of [User]; the
    [password] column is dropped. *)
Definition parse_obj (row : usr_with_privileges_row) : User :=
  let r := view_usr row in
  mkUser (usr_id r)
    (mkUserWithoutId (usr_name r) (usr_description r) (view_privileges row)
       (usr_user_tag_id r) (usr_transport_account_id r)
       (usr_cashier_account_id r)).

(** ** Exceptions and the connection monad *)

Inductive Exception : Type :=
  | NotFoundException (element_typ element_id : string)
  | PermissionDenied
  | ValidationError.

(** A coroutine that runs on a connection: it reads the database and either
    raises, or returns a value and the database it leaves. *)
Definition Conn (A : Type) : Type := DB -> Exception + (A * DB).

Definition ret {A} (a : A) : Conn A := fun db => inr (a, db).

Definition raise {A} (e : Exception) : Conn A := fun _ => inl e.

Definition bind {A B} (c : Conn A) (k : A -> Conn B) : Conn B :=
  fun db =>
    match c db with
    | inl e => inl e
    | inr (a, db') => k a db'
    end.

Notation "x <- c ;; k" := (bind c (fun x => k))
  (at level 61, c at next level, right associativity).
Notation "c ;;; k" := (bind c (fun _ => k))
  (at level 61, right associativity).

(** A Python [for x in xs: await body(x)]. *)
Fixpoint for_each {A} (xs : list A) (body : A -> Conn unit) : Conn unit :=
  match xs with
  | [] => ret tt
  | x :: xs' => body x ;;; for_each xs' body
  end.

(** [str] of a Python int. *)
Definition str (z : Z) : string := NilZero.string_of_int (Z.to_int z).

(** ** The SQL statements of the service *)

Definition set_usr (db : DB) (rows : list usr_row) : DB :=
  mkDB rows (usr_privs db) (user_tag_table db) (account db) (usr_session db)
    (usr_id_seq db) (account_id_seq db) (usr_session_id_seq db).

Definition set_usr_privs (db : DB) (rows : list (Z * Privilege)) : DB :=
  mkDB (usr db) rows (user_tag_table db) (account db) (usr_session db)
    (usr_id_seq db) (account_id_seq db) (usr_session_id_seq db).

Definition set_usr_session (db : DB) (rows : list usr_session_row) : DB :=
  mkDB (usr db) (usr_privs db) (user_tag_table db) (account db) rows
    (usr_id_seq db) (account_id_seq db) (usr_session_id_seq db).

(** [insert into usr (name, description, password, user_tag_id,
    transport_account_id, cashier_account_id) values (...) returning id] *)
Definition insert_usr (new_user : UserWithoutId) (hashed_password : option string)
  : Conn Z :=
  fun db =>
    let user_id := usr_id_seq db in
    let row := mk_usr_row user_id (name new_user) (description new_user)
                 hashed_password (user_tag_id new_user)
                 (transport_account_id new_user) (cashier_account_id new_user) in
    inr (user_id,
         mkDB (usr db ++ [row]) (usr_privs db) (user_tag_table db) (account db)
           (usr_session db) (user_id + 1) (account_id_seq db)
           (usr_session_id_seq db)).

(** [insert into usr_privs (usr, priv) values ($1, $2)] *)
Definition insert_usr_privs (user_id : Z) (privilege : Privilege) : Conn unit :=
  fun db => inr (tt, set_usr_privs db (usr_privs db ++ [(user_id, privilege)])).

(** [delete from usr_privs where usr = $1] *)
Definition delete_usr_privs (user_id : Z) : Conn unit :=
  fun db =>
    inr (tt, set_usr_privs db
               (filter (fun p => negb (fst p =? user_id)) (usr_privs db))).

(** [select * from usr_with_privileges where id = $1], [fetchrow] *)
Definition select_usr_with_privileges_by_id (user_id : Z)
  : Conn (option usr_with_privileges_row) :=
  fun db =>
    inr (find (fun v => usr_id (view_usr v) =? user_id) (usr_with_privileges db),
         db).

Definition bound_to (user_tag_id : Z) (r : usr_row) : bool :=
  match usr_user_tag_id r with
  | Some t => t =? user_tag_id
  | None => false
  end.

(** [select * from usr_with_privileges where user_tag_id = $1], [fetchrow] *)
Definition select_usr_with_privileges_by_user_tag_id (user_tag_id : Z)
  : Conn (option usr_with_privileges_row) :=
  fun db =>
    inr (find (fun v => bound_to user_tag_id (view_usr v)) (usr_with_privileges db),
         db).

(** [select * from usr_with_privileges where name = $1], [fetchrow] *)
Definition select_usr_with_privileges_by_name (username : string)
  : Conn (option usr_with_privileges_row) :=
  fun db =>
    inr (find (fun v => String.eqb (usr_name (view_usr v)) username)
           (usr_with_privileges db),
         db).

(** [select * from usr_with_privileges], read through a cursor *)
Definition select_usr_with_privileges : Conn (list usr_with_privileges_row) :=
  fun db => inr (usr_with_privileges db, db).

(** [select id from user_tag where uid = $1], [fetchval] *)
Definition select_user_tag_id (uid : Z) : Conn (option Z) :=
  fun db =>
    inr (option_map tag_id (find (fun t => tag_uid t =? uid) (user_tag_table db)),
         db).

(** [insert into account (type, name) values ($1, $2) returning id] *)
Definition insert_account (type : AccountType) (account_name : string) : Conn Z :=
  fun db =>
    let new_id := account_id_seq db in
    inr (new_id,
         mkDB (usr db) (usr_privs db) (user_tag_table db)
           (account db ++ [mk_account_row new_id type account_name])
           (usr_session db) (usr_id_seq db) (new_id + 1) (usr_session_id_seq db)).

Definition replace_usr (user : UserWithoutId) (r : usr_row) : usr_row :=
  mk_usr_row (usr_id r) (name user) (description user) (usr_password r)
    (user_tag_id user) (transport_account_id user) (cashier_account_id user).

Definition update_where (user_id : Z) (f : usr_row -> usr_row) (r : usr_row)
  : usr_row :=
  if usr_id r =? user_id then f r else r.

(** The value of [returning id] read with [fetchrow] or [fetchval]: the id of
    the first updated row, [None] when the statement updated none. *)
Definition returning_id (user_id : Z) (rows : list usr_row) : option Z :=
  option_map usr_id (find (fun r => usr_id r =? user_id) rows).

(** [update usr set name = $2, description = $3, user_tag_id = $4,
    transport_account_id = $5, cashier_account_id = $6 where id = $1
    returning id] *)
Definition update_usr (user_id : Z) (user : UserWithoutId) : Conn (option Z) :=
  fun db =>
    inr (returning_id user_id (usr db),
         set_usr db (map (update_where user_id (replace_usr user)) (usr db))).

Definition set_cashier_account_id (account_id : Z) (r : usr_row) : usr_row :=
  mk_usr_row (usr_id r) (usr_name r) (usr_description r) (usr_password r)
    (usr_user_tag_id r) (usr_transport_account_id r) (Some account_id).

Definition set_transport_account_id (account_id : Z) (r : usr_row) : usr_row :=
  mk_usr_row (usr_id r) (usr_name r) (usr_description r) (usr_password r)
    (usr_user_tag_id r) (Some account_id) (usr_cashier_account_id r).

(** [update usr set cashier_account_id = $2 where id = $1 returning id] *)
Definition update_usr_cashier_account_id (user_id account_id : Z)
  : Conn (option Z) :=
  fun db =>
    inr (returning_id user_id (usr db),
         set_usr db
           (map (update_where user_id (set_cashier_account_id account_id))
              (usr db))).

(** [update usr set transport_account_id = $2 where id = $1 returning id] *)
Definition update_usr_transport_account_id (user_id account_id : Z)
  : Conn (option Z) :=
  fun db =>
    inr (returning_id user_id (usr db),
         set_usr db
           (map (update_where user_id (set_transport_account_id account_id))
              (usr db))).

(** The status string [conn.execute] returns for a delete statement. *)
Definition delete_status (n : nat) : string :=
  "DELETE " ++ NilZero.string_of_uint (Nat.to_uint n).

(** [delete from usr where id = $1] *)
Definition delete_usr (user_id : Z) : Conn string :=
  fun db =>
    inr (delete_status
           (List.length (filter (fun r => usr_id r =? user_id) (usr db))),
         set_usr db (filter (fun r => negb (usr_id r =? user_id)) (usr db))).

Definition session_matches (user_id session : Z) (s : usr_session_row) : bool :=
  (session_usr s =? user_id) && (session_id s =? session).

(** [delete from usr_session where usr = $1 and id = $2] *)
Definition delete_usr_session (user_id session : Z) : Conn string :=
  fun db =>
    inr (delete_status
           (List.length (filter (session_matches user_id session) (usr_session db))),
         set_usr_session db
           (filter (fun s => negb (session_matches user_id session s))
              (usr_session db))).

(** [insert into usr_session (usr) values ($1) returning id] *)
Definition insert_usr_session (user_id : Z) : Conn Z :=
  fun db =>
    let new_id := usr_session_id_seq db in
    inr (new_id,
         mkDB (usr db) (usr_privs db) (user_tag_table db) (account db)
           (usr_session db ++ [mk_usr_session_row new_id user_id])
           (usr_id_seq db) (account_id_seq db) (new_id + 1)).

(** ** Collaborators of the service *)

(** [self.pwd_context], the passlib [CryptContext]: [hash] and [verify] are
    library code. The digest [hash] returns depends on a salt drawn inside
    the library; [pwd_context_hash] stands for the digest of the call at
    hand, and nothing below compares two digests. [verify] is handed the
    [password] column as it is stored, which is [None] for a user created
    without a password. *)
Class CryptContext : Type := {
  pwd_context_hash : string -> string;
  pwd_context_verify : string -> option string -> bool
}.

(** [self.auth_service], declared in [stustapay/core/service/auth.py]. *)
Class AuthService : Type := {
  create_user_access_token : UserTokenMetadata -> string;
  decode_user_jwt_payload : string -> option UserTokenMetadata
}.

(** ** Decorators ([stustapay.core.service.common.decorators]) *)

Definition holds_one_of (required : list Privilege) (u : User) : bool :=
  existsb (fun p => existsb (Privilege_eqb p) (privileges u)) required.

(** Modelled from the spec: [requires_user_privileges] is declared outside the
    service. It "resolves the calling principal", "if [required] is empty,
    only checks the principal is authenticated; otherwise fails with
    [PermissionDenied] unless the principal holds at least one privilege in
    [required]"; the body then runs with the principal as [current_user]. *)
Definition requires_user_privileges {A} (required : list Privilege)
    (body : User -> Conn A) (current_user : option User) : Conn A :=
  match current_user with
  | None => raise PermissionDenied
  | Some u =>
      match required with
      | [] => body u
      | _ :: _ => if holds_one_of required u then body u else raise PermissionDenied
      end
  end.

(** Modelled from the spec: [requires_terminal] is declared outside the
    service. It is [requires_user_privileges] "plus validates the call
    originates from a context bound to a physical terminal device". *)
Definition requires_terminal {A} (required : list Privilege)
    (body : User -> Conn A) (current_terminal : option Z)
    (current_user : option User) : Conn A :=
  match current_terminal with
  | None => raise PermissionDenied
  | Some _ => requires_user_privileges required body current_user
  end.

(** Modelled from the spec: [with_db_transaction] is declared outside the
    service. A public call is "a single atomic unit": when the body raises,
    the transaction is rolled back and the database is the one the call
    started from. A call that is handed a connection by another operation
    runs inside that operation's transaction, which is the plain [Conn]
    computation. *)
Definition with_db_transaction {A} (body : Conn A) (db : DB)
  : (Exception + A) * DB :=
  match body db with
  | inl e => (inl e, db)
  | inr (a, db') => (inr a, db')
  end.

(** ** [UserService] *)

Definition with_cashier_account (account_id : Z) (u : User) : User :=
  mkUser (id u)
    (mkUserWithoutId (name u) (description u)
       (privileges u ++ [cashier]) (user_tag_id u)
       (transport_account_id u) (Some account_id)).

Definition with_transport_account (account_id : Z) (u : User) : User :=
  mkUser (id u)
    (mkUserWithoutId (name u) (description u)
       (privileges u ++ [finanzorga]) (user_tag_id u)
       (Some account_id) (cashier_account_id u)).

Section UserService.

Context {pwd_context : CryptContext} {auth_service : AuthService}.

Definition _hash_password (password : string) : string :=
  pwd_context_hash password.

Definition _check_password (password : string) (hashed_password : option string)
  : bool :=
  pwd_context_verify password hashed_password.

(** [if password:] holds for a string that is neither [None] nor empty. *)
Definition hashed_password_of (password : option string) : option string :=
  match password with
  | Some p => if String.eqb p "" then None else Some (_hash_password p)
  | None => None
  end.

(** [User.parse_obj] of the row [fetchrow] returned; it cannot parse [None]. *)
Definition parse_fetched (row : option usr_with_privileges_row) : Conn User :=
  match row with
  | Some row => ret (parse_obj row)
  | None => raise ValidationError
  end.

Definition _create_user (new_user : UserWithoutId) (password : option string)
  : Conn User :=
  let hashed_password := hashed_password_of password in
  user_id <- insert_usr new_user hashed_password ;;
  for_each (privileges new_user) (fun privilege => insert_usr_privs user_id privilege) ;;;
  row <- select_usr_with_privileges_by_id user_id ;;
  parse_fetched row.

Definition create_user_no_auth (new_user : UserWithoutId)
    (password : option string) : Conn User :=
  _create_user new_user password.

Definition create_user (current_user : option User) (new_user : UserWithoutId)
    (password : option string) : Conn User :=
  requires_user_privileges [admin]
    (fun _ => _create_user new_user password) current_user.

Definition _get_user (user_id : Z) : Conn User :=
  row <- select_usr_with_privileges_by_id user_id ;;
  match row with
  | None => raise (NotFoundException "user" (str user_id))
  | Some row => ret (parse_obj row)
  end.

Definition get_user (current_user : option User) (user_id : Z) : Conn User :=
  requires_user_privileges [admin] (fun _ => _get_user user_id) current_user.

Definition _update_user (user_id : Z) (user : UserWithoutId) : Conn User :=
  row <- update_usr user_id user ;;
  match row with
  | None => raise (NotFoundException "user" (str user_id))
  | Some _ =>
      delete_usr_privs user_id ;;;
      for_each (privileges user) (fun privilege => insert_usr_privs user_id privilege) ;;;
      _get_user user_id
  end.

Definition update_user (current_user : option User) (user_id : Z)
    (user : UserWithoutId) : Conn User :=
  requires_user_privileges [admin]
    (fun _ => _update_user user_id user) current_user.

Definition create_user_with_tag (current_user : option User) (new_user : NewUser)
  : Conn User :=
  requires_user_privileges [admin]
    (fun _ =>
       user_tag_id <- select_user_tag_id (user_tag new_user) ;;
       match user_tag_id with
       | None => raise (NotFoundException "user_tag" (str (user_tag new_user)))
       | Some user_tag_id =>
           existing_user <- select_usr_with_privileges_by_user_tag_id user_tag_id ;;
           match existing_user with
           | Some existing_user => ret (parse_obj existing_user)
           | None =>
               let user := mkUserWithoutId (new_name new_user) None []
                             (Some user_tag_id) None None in
               _create_user user None
           end
       end)
    current_user.

(** [_get_user] raises for an absent row, so the [user is None] test that
    follows it in the source never fires; it would raise the same exception. *)
Definition promote_to_cashier (current_user : option User) (user_id : Z)
  : Conn User :=
  requires_user_privileges [admin]
    (fun _ =>
       user <- _get_user user_id ;;
       if existsb (Privilege_eqb cashier) (privileges user) then ret user
       else
         account_id <- insert_account internal
                         ("Cashier account for " ++ name user) ;;
         let user := with_cashier_account account_id user in
         _update_user (id user) user)
    current_user.

Definition promote_to_finanzorga (current_user : option User) (user_id : Z)
  : Conn User :=
  requires_user_privileges [admin]
    (fun _ =>
       user <- _get_user user_id ;;
       if existsb (Privilege_eqb finanzorga) (privileges user) then ret user
       else
         account_id <- insert_account internal
                         ("Transport account for finanzorga " ++ name user) ;;
         let user := with_transport_account account_id user in
         _update_user (id user) user)
    current_user.

Definition create_cashier (current_terminal : option Z)
    (current_user : option User) (new_user : NewUser) : Conn User :=
  requires_terminal [admin]
    (fun current_user =>
       user <- create_user_with_tag (Some current_user) new_user ;;
       user <- promote_to_cashier (Some current_user) (id user) ;;
       ret user)
    current_terminal current_user.

Definition create_finanzorga (current_terminal : option Z)
    (current_user : option User) (new_user : NewUser) : Conn User :=
  requires_terminal [admin]
    (fun current_user =>
       user <- create_user_with_tag (Some current_user) new_user ;;
       user <- promote_to_cashier (Some current_user) (id user) ;;
       user <- promote_to_finanzorga (Some current_user) (id user) ;;
       ret user)
    current_terminal current_user.

Definition list_users (current_user : option User) : Conn (list User) :=
  requires_user_privileges [admin]
    (fun _ =>
       rows <- select_usr_with_privileges ;;
       ret (map parse_obj rows))
    current_user.

(** [result != "DELETE 0"] *)
Definition deleted_some (result : string) : bool :=
  negb (String.eqb result "DELETE 0").

Definition delete_user (current_user : option User) (user_id : Z) : Conn bool :=
  requires_user_privileges [admin]
    (fun _ =>
       result <- delete_usr user_id ;;
       ret (deleted_some result))
    current_user.

(** [result is not None] *)
Definition is_not_None {A} (result : option A) : bool :=
  match result with Some _ => true | None => false end.

Definition link_user_to_cashier_account (current_user : option User)
    (user_id account_id : Z) : Conn bool :=
  requires_user_privileges [admin]
    (fun _ =>
       result <- update_usr_cashier_account_id user_id account_id ;;
       ret (is_not_None result))
    current_user.

Definition link_user_to_transport_account (current_user : option User)
    (user_id account_id : Z) : Conn bool :=
  requires_user_privileges [admin]
    (fun _ =>
       result <- update_usr_transport_account_id user_id account_id ;;
       ret (is_not_None result))
    current_user.

Definition login_user (username password : string)
  : Conn (option UserLoginSuccess) :=
  row <- select_usr_with_privileges_by_name username ;;
  match row with
  | None => ret None
  | Some row =>
      if negb (_check_password password (usr_password (view_usr row)))
      then ret None
      else
        let user := parse_obj row in
        session_id <- insert_usr_session (id user) ;;
        let token := create_user_access_token
                       (mkUserTokenMetadata (id user) session_id) in
        ret (Some (mkUserLoginSuccess user token))
  end.

Definition logout_user (current_user : option User) (token : string)
  : Conn bool :=
  requires_user_privileges []
    (fun current_user =>
       match decode_user_jwt_payload token with
       | None => ret false
       | Some token_payload =>
           if negb (id current_user =? token_user_id token_payload)
           then ret false
           else
             result <- delete_usr_session (id current_user)
                         (token_session_id token_payload) ;;
             ret (deleted_some result)
       end)
    current_user.

End UserService.

(** ** The public operations as a transition system *)

(** What the request layer hands to a call: the resolved principal and the
    terminal the call comes from, if any. *)
Record Caller : Type := mkCaller {
  current_user : option User;
  current_terminal : option Z
}.

Inductive Op : Type :=
  | OpCreateUserNoAuth (new_user : UserWithoutId) (password : option string)
  | OpCreateUser (new_user : UserWithoutId) (password : option string)
  | OpCreateCashier (new_user : NewUser)
  | OpCreateFinanzorga (new_user : NewUser)
  | OpCreateUserWithTag (new_user : NewUser)
  | OpPromoteToCashier (user_id : Z)
  | OpPromoteToFinanzorga (user_id : Z)
  | OpListUsers
  | OpGetUser (user_id : Z)
  | OpUpdateUser (user_id : Z) (user : UserWithoutId)
  | OpDeleteUser (user_id : Z)
  | OpLinkUserToCashierAccount (user_id account_id : Z)
  | OpLinkUserToTransportAccount (user_id account_id : Z)
  | OpLoginUser (username password : string)
  | OpLogoutUser (token : string).

Section Transitions.

Context {pwd_context : CryptContext} {auth_service : AuthService}.

(** The database a public call leaves: every public method is wrapped in
    [with_db_transaction]. *)
Definition exec (caller : Caller) (op : Op) (db : DB) : DB :=
  let cu := current_user caller in
  let ct := current_terminal caller in
  match op with
  | OpCreateUserNoAuth new_user password =>
      snd (with_db_transaction (create_user_no_auth new_user password) db)
  | OpCreateUser new_user password =>
      snd (with_db_transaction (create_user cu new_user password) db)
  | OpCreateCashier new_user =>
      snd (with_db_transaction (create_cashier ct cu new_user) db)
  | OpCreateFinanzorga new_user =>
      snd (with_db_transaction (create_finanzorga ct cu new_user) db)
  | OpCreateUserWithTag new_user =>
      snd (with_db_transaction (create_user_with_tag cu new_user) db)
  | OpPromoteToCashier user_id =>
      snd (with_db_transaction (promote_to_cashier cu user_id) db)
  | OpPromoteToFinanzorga user_id =>
      snd (with_db_transaction (promote_to_finanzorga cu user_id) db)
  | OpListUsers => snd (with_db_transaction (list_users cu) db)
  | OpGetUser user_id => snd (with_db_transaction (get_user cu user_id) db)
  | OpUpdateUser user_id user =>
      snd (with_db_transaction (update_user cu user_id user) db)
  | OpDeleteUser user_id =>
      snd (with_db_transaction (delete_user cu user_id) db)
  | OpLinkUserToCashierAccount user_id account_id =>
      snd (with_db_transaction
             (link_user_to_cashier_account cu user_id account_id) db)
  | OpLinkUserToTransportAccount user_id account_id =>
      snd (with_db_transaction
             (link_user_to_transport_account cu user_id account_id) db)
  | OpLoginUser username password =>
      snd (with_db_transaction (login_user username password) db)
  | OpLogoutUser token =>
      snd (with_db_transaction (logout_user cu token) db)
  end.

(** The states reached from [db0] by public calls whose operations all
    satisfy [allowed]. *)
Inductive reachable_by (allowed : Op -> Prop) (db0 : DB) : DB -> Prop :=
  | reachable_start : reachable_by allowed db0 db0
  | reachable_call (caller : Caller) (op : Op) (db : DB) :
      reachable_by allowed db0 db -> allowed op ->
      reachable_by allowed db0 (exec caller op db).

End Transitions.

(** ** State predicates *)

(** The users of a database, as any read of the service hydrates them. *)
Definition users (db : DB) : list User := map parse_obj (usr_with_privileges db).

(** The user [select ... where id = $1] hydrates. *)
Definition lookup_user (db : DB) (user_id : Z) : option User :=
  option_map parse_obj
    (find (fun v => usr_id (view_usr v) =? user_id) (usr_with_privileges db)).

(** The first user a tag id is bound to. *)
Definition lookup_user_by_tag (db : DB) (user_tag_id : Z) : option User :=
  option_map parse_obj
    (find (fun v => bound_to user_tag_id (view_usr v)) (usr_with_privileges db)).

(** The row a user name resolves to at login. *)
Definition lookup_row_by_name (db : DB) (username : string)
  : option usr_with_privileges_row :=
  find (fun v => String.eqb (usr_name (view_usr v)) username)
    (usr_with_privileges db).

(** The tag id a uid resolves to. *)
Definition resolve_tag (db : DB) (uid : Z) : option Z :=
  option_map tag_id (find (fun t => tag_uid t =? uid) (user_tag_table db)).

(** Ids handed out so far lie below the counter of [usr]. *)
Definition wf_db (db : DB) : Prop :=
  (forall r, In r (usr db) -> usr_id r < usr_id_seq db) /\
  (forall p, In p (usr_privs db) -> fst p < usr_id_seq db).

Definition no_users (db : DB) : Prop :=
  usr db = [] /\ usr_privs db = [].

(** Whoever holds [cashier] has a cashier account. *)
Definition linked (u : UserWithoutId) : Prop :=
  In cashier (privileges u) -> cashier_account_id u <> None.

Definition cashier_linked (db : DB) : Prop :=
  forall u, In u (users db) -> linked u.

(** The payloads of the operations that store a caller-supplied combination
    of privileges and account links. *)
Definition supplies_linked (op : Op) : Prop :=
  match op with
  | OpCreateUserNoAuth new_user _ | OpCreateUser new_user _ => linked new_user
  | OpUpdateUser _ user => linked user
  | _ => True
  end.

Definition any_op (op : Op) : Prop := True.



Definition authorized (required : list Privilege) (current_user : option User)
  : Prop :=
  exists u, current_user = Some u /\
            (required = [] \/ holds_one_of required u = true).

(** ** Closed forms of the database a statement sequence leaves *)

Definition db_create_user (new_user : UserWithoutId)
    (hashed_password : option string) (db : DB) : DB :=
  let user_id := usr_id_seq db in
  mkDB (usr db ++ [mk_usr_row user_id (name new_user) (description new_user)
                     hashed_password (user_tag_id new_user)
                     (transport_account_id new_user)
                     (cashier_account_id new_user)])
    (usr_privs db ++ map (pair user_id) (privileges new_user))
    (user_tag_table db) (account db) (usr_session db)
    (user_id + 1) (account_id_seq db) (usr_session_id_seq db).

Definition db_update_user (user_id : Z) (user : UserWithoutId) (db : DB) : DB :=
  mkDB (map (update_where user_id (replace_usr user)) (usr db))
    (filter (fun p => negb (fst p =? user_id)) (usr_privs db)
       ++ map (pair user_id) (privileges user))
    (user_tag_table db) (account db) (usr_session db)
    (usr_id_seq db) (account_id_seq db) (usr_session_id_seq db).

Definition db_create_account (type : AccountType) (account_name : string)
    (db : DB) : DB :=
  mkDB (usr db) (usr_privs db) (user_tag_table db)
    (account db ++ [mk_account_row (account_id_seq db) type account_name])
    (usr_session db) (usr_id_seq db) (account_id_seq db + 1)
    (usr_session_id_seq db).

(** The user [create_user_with_tag] builds for a tag nobody is bound to. *)
Definition tag_user (new_user : NewUser) (user_tag_id : Z) : UserWithoutId :=
  mkUserWithoutId (new_name new_user) None [] (Some user_tag_id) None None.

Definition Privilege_eq_dec (p q : Privilege) : {p = q} + {p <> q}.
Proof. decide equality. Defined.

Definition db_delete_user (user_id : Z) (db : DB) : DB :=
  set_usr db (filter (fun r => negb (usr_id r =? user_id)) (usr db)).

Definition db_delete_session (user_id session : Z) (db : DB) : DB :=
  set_usr_session db
    (filter (fun s => negb (session_matches user_id session s)) (usr_session db)).

Definition db_link_cashier_account (user_id account_id : Z) (db : DB) : DB :=
  set_usr db
    (map (update_where user_id (set_cashier_account_id account_id)) (usr db)).

Definition db_link_transport_account (user_id account_id : Z) (db : DB) : DB :=
  set_usr db
    (map (update_where user_id (set_transport_account_id account_id)) (usr db)).

Definition db_create_session (user_id : Z) (db : DB) : DB :=
  mkDB (usr db) (usr_privs db) (user_tag_table db) (account db)
    (usr_session db ++ [mk_usr_session_row (usr_session_id_seq db) user_id])
    (usr_id_seq db) (account_id_seq db) (usr_session_id_seq db + 1).

(** [cashier_linked], read on the rows of [usr]. *)
Definition rows_linked (db : DB) : Prop :=
  forall r, In r (usr db) ->
            In cashier (privileges_of db (usr_id r)) ->
            usr_cashier_account_id r <> None.


(** What a public call can do to the database, operation by operation: a
    call that raises, or is refused, leaves it unchanged; the composed
    terminal operations chain the effects of the calls they make. *)
Inductive effect : Op -> DB -> DB -> Prop :=
  | effect_unchanged op db : effect op db db
  | effect_create_user_no_auth new_user password h db :
      effect (OpCreateUserNoAuth new_user password) db
        (db_create_user new_user h db)
  | effect_create_user new_user password h db :
      effect (OpCreateUser new_user password) db (db_create_user new_user h db)
  | effect_create_user_with_tag new_user t db :
      effect (OpCreateUserWithTag new_user) db
        (db_create_user (tag_user new_user t) None db)
  | effect_promote_to_cashier user_id u db :
      lookup_user db user_id = Some u ->
      ~ In cashier (privileges u) ->
      effect (OpPromoteToCashier user_id) db
        (db_update_user user_id (with_cashier_account (account_id_seq db) u)
           (db_create_account internal ("Cashier account for " ++ name u) db))
  | effect_promote_to_finanzorga user_id u db :
      lookup_user db user_id = Some u ->
      ~ In finanzorga (privileges u) ->
      effect (OpPromoteToFinanzorga user_id) db
        (db_update_user user_id (with_transport_account (account_id_seq db) u)
           (db_create_account internal
              ("Transport account for finanzorga " ++ name u) db))
  | effect_create_cashier new_user user_id db db1 db2 :
      effect (OpCreateUserWithTag new_user) db db1 ->
      effect (OpPromoteToCashier user_id) db1 db2 ->
      effect (OpCreateCashier new_user) db db2
  | effect_create_finanzorga new_user user_id user_id' db db1 db2 db3 :
      effect (OpCreateUserWithTag new_user) db db1 ->
      effect (OpPromoteToCashier user_id) db1 db2 ->
      effect (OpPromoteToFinanzorga user_id') db2 db3 ->
      effect (OpCreateFinanzorga new_user) db db3
  | effect_update_user user_id user db :
      lookup_user db user_id <> None ->
      effect (OpUpdateUser user_id user) db (db_update_user user_id user db)
  | effect_delete_user user_id db :
      effect (OpDeleteUser user_id) db (db_delete_user user_id db)
  | effect_link_cashier user_id account_id db :
      effect (OpLinkUserToCashierAccount user_id account_id) db
        (db_link_cashier_account user_id account_id db)
  | effect_link_transport user_id account_id db :
      effect (OpLinkUserToTransportAccount user_id account_id) db
        (db_link_transport_account user_id account_id db)
  | effect_login username password user_id db :
      effect (OpLoginUser username password) db (db_create_session user_id db)
  | effect_logout token user_id session db :
      effect (OpLogoutUser token) db (db_delete_session user_id session db).

(** The user a row of [usr] hydrates to. *)
Definition user_of (db : DB) (r : usr_row) : User :=
  parse_obj (mk_view_row r (privileges_of db (usr_id r))).

(** What the guarded bodies compute, read off the tables. *)

Section ClosedForms.

Context {pwd_context : CryptContext} {auth_service : AuthService}.

Definition create_user_with_tag_body (new_user : NewUser) : Conn User :=
  fun db =>
    match resolve_tag db (user_tag new_user) with
    | None => inl (NotFoundException "user_tag" (str (user_tag new_user)))
    | Some t =>
        match lookup_user_by_tag db t with
        | Some existing => inr (existing, db)
        | None => _create_user (tag_user new_user t) None db
        end
    end.

Definition promote_to_cashier_body (user_id : Z) : Conn User :=
  fun db =>
    match lookup_user db user_id with
    | None => inl (NotFoundException "user" (str user_id))
    | Some u =>
        if existsb (Privilege_eqb cashier) (privileges u) then inr (u, db)
        else
          let u' := with_cashier_account (account_id_seq db) u in
          inr (u', db_update_user user_id u'
                     (db_create_account internal
                        ("Cashier account for " ++ name u) db))
    end.

Definition promote_to_finanzorga_body (user_id : Z) : Conn User :=
  fun db =>
    match lookup_user db user_id with
    | None => inl (NotFoundException "user" (str user_id))
    | Some u =>
        if existsb (Privilege_eqb finanzorga) (privileges u) then inr (u, db)
        else
          let u' := with_transport_account (account_id_seq db) u in
          inr (u', db_update_user user_id u'
                     (db_create_account internal
                        ("Transport account for finanzorga " ++ name u) db))
    end.

End ClosedForms.

(** ** A small installation, for evaluating the service *)

Definition sample_pwd_context : CryptContext :=
  {| pwd_context_hash := fun p => ("$2b$" ++ p)%string;
     pwd_context_verify := fun p h =>
       match h with
       | Some h => String.eqb h ("$2b$" ++ p)
       | None => false
       end |}.

Definition sample_auth_service : AuthService :=
  {| create_user_access_token := fun m =>
       (str (token_user_id m) ++ "." ++ str (token_session_id m))%string;
     decode_user_jwt_payload := fun t =>
       if String.eqb t "1.1" then Some (mkUserTokenMetadata 1 1)
       else if String.eqb t "2.1" then Some (mkUserTokenMetadata 2 1)
       else None |}.

Definition sample_admin : User :=
  mkUser 1 (mkUserWithoutId "admin" None [admin] None None None).

Definition sample_caller : Caller := mkCaller (Some sample_admin) (Some 7).

(** One administrator with a password, one user created from tag 10 without
    one, two known tags, one open session of the administrator. *)
Definition sample_db : DB :=
  mkDB [mk_usr_row 1 "admin" None (Some "$2b$secret") None None None;
        mk_usr_row 2 "bar" None None (Some 10) None None]
       [(1, admin)]
       [mk_user_tag_row 10 1234; mk_user_tag_row 11 5678]
       []
       [mk_usr_session_row 1 1]
       3 1 2.

Definition cashier_without_account : UserWithoutId :=
  mkUserWithoutId "till" None [cashier] None None None.

Definition bar_without_grants : UserWithoutId :=
  mkUserWithoutId "bar" None [] (Some 10) None None.

Definition bar_two_privileges : UserWithoutId :=
  mkUserWithoutId "bar" None [cashier; finanzorga] (Some 10) (Some 4) (Some 5).

Definition bar_one_privilege : UserWithoutId :=
  mkUserWithoutId "bar" None [finanzorga] (Some 10) (Some 4) (Some 5).

Definition linked_cashier : UserWithoutId :=
  mkUserWithoutId "till" None [cashier] None None (Some 1).

(** [sample_db] after the stored user 2 was promoted to cashier. *)
Definition sample_db_promoted : DB :=
  @exec sample_pwd_context sample_auth_service sample_caller
    (OpPromoteToCashier 2) sample_db.

(** [sample_db] after an administrator created [cashier_without_account]. *)
Definition sample_db_unlinked : DB :=
  @exec sample_pwd_context sample_auth_service sample_caller
    (OpCreateUser cashier_without_account None) sample_db.

(** ** Further state predicates *)

(** No two rows of [usr] share an id. *)
Definition unique_ids (db : DB) : Prop := NoDup (map usr_id (usr db)).

(** Session ids handed out so far lie below the counter of [usr_session]. *)
Definition sessions_fresh (db : DB) : Prop :=
  forall s, In s (usr_session db) -> session_id s < usr_session_id_seq db.

(** A user with its cashier account, or its transport account, replaced. *)
Definition relink_cashier (account_id : Z) (u : User) : User :=
  mkUser (id u)
    (mkUserWithoutId (name u) (description u) (privileges u) (user_tag_id u)
       (transport_account_id u) (Some account_id)).

Definition relink_transport (account_id : Z) (u : User) : User :=
  mkUser (id u)
    (mkUserWithoutId (name u) (description u) (privileges u) (user_tag_id u)
       (Some account_id) (cashier_account_id u)).

(** The operations decorated with a privilege requirement of [admin]. *)
Definition admin_guarded (op : Op) : Prop :=
  match op with
  | OpCreateUserNoAuth _ _ | OpLoginUser _ _ | OpLogoutUser _ => False
  | _ => True
  end.

Definition session_op (op : Op) : Prop :=
  match op with
  | OpLoginUser _ _ | OpLogoutUser _ => True
  | _ => False
  end.

(** The operations that create an account. *)
Definition promoting_op (op : Op) : Prop :=
  match op with
  | OpPromoteToCashier _ | OpPromoteToFinanzorga _
  | OpCreateCashier _ | OpCreateFinanzorga _ => True
  | _ => False
  end.

(** Every row of [db'] with an id handed out in [db] has the password of a
    row of [db] with that id. *)
Definition passwords_kept (db db' : DB) : Prop :=
  usr_id_seq db <= usr_id_seq db' /\
  forall r', In r' (usr db') -> usr_id r' < usr_id_seq db ->
             exists r, In r (usr db) /\ usr_id r = usr_id r' /\
                       usr_password r = usr_password r'.

Definition alice : UserWithoutId :=
  mkUserWithoutId "alice" (Some "orga") [admin; finanzorga] None (Some 8) None.

Definition sample_non_admin : User := mkUser 2 bar_without_grants.

(** [sample_db] with every session closed and the session counter at its
    start. *)
Definition sample_db_closed : DB :=
  mkDB (usr sample_db) (usr_privs sample_db) (user_tag_table sample_db)
    (account sample_db) [] (usr_id_seq sample_db) (account_id_seq sample_db) 1.

Definition sample_admin_row : usr_with_privileges_row :=
  mk_view_row (mk_usr_row 1 "admin" None (Some "$2b$secret") None None None)
    [admin].


Definition without_create_finanzorga (op : Op) : Prop :=
  match op with
  | OpCreateFinanzorga _ => False
  | _ => True
  end.



(** [sample_db_promoted] after user 2 was promoted to finanzorga as well. *)
Definition sample_db_promoted_twice : DB :=
  @exec sample_pwd_context sample_auth_service sample_caller
    (OpPromoteToFinanzorga 2) sample_db_promoted.

(** ** Lists and the view *)

Lemma find_map {A B} (f : A -> B) (p : B -> bool) (l : list A) :
  find p (map f l) = option_map f (find (fun a => p (f a)) l).
Proof.
  induction l as [|a l IH]; simpl; [reflexivity|].
  destruct (p (f a)); [reflexivity | exact IH].
Qed.

Lemma find_app {A} (p : A -> bool) (l1 l2 : list A) :
  find p (l1 ++ l2) =
  match find p l1 with Some a => Some a | None => find p l2 end.
Proof.
  induction l1 as [|a l1 IH]; simpl; [reflexivity|].
  destruct (p a); [reflexivity | exact IH].
Qed.

Lemma find_none_iff {A} (p : A -> bool) (l : list A) :
  find p l = None <-> forall a, In a l -> p a = false.
Proof.
  split; [apply find_none|].
  induction l as [|a l IH]; simpl; intros H; [reflexivity|].
  rewrite (H a (or_introl eq_refl)). apply IH. intros b Hb. apply H. now right.
Qed.

Lemma Privilege_eqb_eq (p q : Privilege) : Privilege_eqb p q = true <-> p = q.
Proof. destruct p, q; simpl; split; congruence. Qed.

Lemma holds_iff (p : Privilege) (l : list Privilege) :
  existsb (Privilege_eqb p) l = true <-> In p l.
Proof.
  rewrite existsb_exists. split.
  - intros [q [Hq E]]. apply Privilege_eqb_eq in E. now subst.
  - intros H. exists p. split; [exact H | now apply Privilege_eqb_eq].
Qed.

Lemma holds_false_iff (p : Privilege) (l : list Privilege) :
  existsb (Privilege_eqb p) l = false <-> ~ In p l.
Proof.
  rewrite <- holds_iff. destruct (existsb (Privilege_eqb p) l); split; congruence.
Qed.

Lemma users_rows (db : DB) : users db = map (user_of db) (usr db).
Proof. unfold users, usr_with_privileges. now rewrite map_map. Qed.

Lemma lookup_user_rows (db : DB) (i : Z) :
  lookup_user db i =
  option_map (user_of db) (find (fun r => usr_id r =? i) (usr db)).
Proof.
  unfold lookup_user, usr_with_privileges. rewrite find_map. simpl.
  now destruct (find _ (usr db)).
Qed.

Lemma lookup_user_by_tag_rows (db : DB) (t : Z) :
  lookup_user_by_tag db t =
  option_map (user_of db) (find (bound_to t) (usr db)).
Proof.
  unfold lookup_user_by_tag, usr_with_privileges. rewrite find_map. simpl.
  now destruct (find _ (usr db)).
Qed.

Lemma lookup_user_id (db : DB) (i : Z) (u : User) :
  lookup_user db i = Some u -> id u = i.
Proof.
  rewrite lookup_user_rows. destruct (find _ (usr db)) as [r|] eqn:E; [|discriminate].
  intros H. injection H as <-. apply find_some in E. simpl. lia.
Qed.

Lemma lookup_user_In (db : DB) (i : Z) (u : User) :
  lookup_user db i = Some u -> In u (users db).
Proof.
  rewrite lookup_user_rows, users_rows.
  destruct (find _ (usr db)) as [r|] eqn:E; [|discriminate].
  intros H. injection H as <-. apply in_map. now apply find_some in E.
Qed.

Lemma privileges_user_of (db : DB) (r : usr_row) :
  privileges (user_of db r) = privileges_of db (usr_id r).
Proof. reflexivity. Qed.

Lemma In_privileges_of (db : DB) (i : Z) (p : Privilege) :
  In p (privileges_of db i) <-> In (i, p) (usr_privs db).
Proof.
  unfold privileges_of. rewrite in_map_iff. split.
  - intros [[j q] [E H]]. simpl in E. subst q.
    apply filter_In in H. destruct H as [H1 H2]. simpl in H2.
    apply Z.eqb_eq in H2. now subst.
  - intros H. exists (i, p). split; [reflexivity|].
    apply filter_In. split; [exact H | apply Z.eqb_refl].
Qed.

Lemma user_eta (u : UserWithoutId) :
  mkUserWithoutId (name u) (description u) (privileges u) (user_tag_id u)
    (transport_account_id u) (cashier_account_id u) = u.
Proof. now destruct u. Qed.

(** ** The monad *)

Lemma for_each_insert_usr_privs (i : Z) (ps : list Privilege) (db : DB) :
  for_each ps (fun p => insert_usr_privs i p) db =
  inr (tt, set_usr_privs db (usr_privs db ++ map (pair i) ps)).
Proof.
  revert db. induction ps as [|p ps IH]; intros db; simpl.
  - unfold ret, set_usr_privs. rewrite app_nil_r. now destruct db.
  - unfold bind at 1. unfold insert_usr_privs at 1. rewrite IH.
    unfold set_usr_privs. simpl. now rewrite <- app_assoc.
Qed.

Lemma with_db_transaction_inr {A} (c : Conn A) (db db' : DB) (a : A) :
  c db = inr (a, db') -> with_db_transaction c db = (inr a, db').
Proof. unfold with_db_transaction. now intros ->. Qed.

Lemma with_db_transaction_inl {A} (c : Conn A) (db : DB) (e : Exception) :
  c db = inl e -> with_db_transaction c db = (inl e, db).
Proof. unfold with_db_transaction. now intros ->. Qed.

Lemma requires_user_privileges_authorized {A} (required : list Privilege)
    (body : User -> Conn A) (cu : option User) :
  authorized required cu ->
  exists u, cu = Some u /\ requires_user_privileges required body cu = body u.
Proof.
  intros [u [-> H]]. exists u. split; [reflexivity|].
  unfold requires_user_privileges. destruct required as [|p l]; [reflexivity|].
  destruct H as [H|H]; [discriminate | now rewrite H].
Qed.

Lemma requires_user_privileges_cases {A} (required : list Privilege)
    (body : User -> Conn A) (cu : option User) (db : DB) :
  requires_user_privileges required body cu db = inl PermissionDenied \/
  exists u, cu = Some u /\
            requires_user_privileges required body cu db = body u db.
Proof.
  unfold requires_user_privileges. destruct cu as [u|]; [|now left].
  destruct required as [|p l]; [right; eauto|].
  destruct (holds_one_of (p :: l) u); [right; eauto | now left].
Qed.

Lemma requires_terminal_cases {A} (required : list Privilege)
    (body : User -> Conn A) (ct : option Z) (cu : option User) (db : DB) :
  requires_terminal required body ct cu db = inl PermissionDenied \/
  exists u, cu = Some u /\
            requires_terminal required body ct cu db = body u db.
Proof.
  unfold requires_terminal. destruct ct; [|now left].
  apply requires_user_privileges_cases.
Qed.

(** ** Reading, updating and creating a user *)

Lemma _get_user_lookup (i : Z) (db : DB) :
  _get_user i db =
  match lookup_user db i with
  | Some u => inr (u, db)
  | None => inl (NotFoundException "user" (str i))
  end.
Proof.
  unfold _get_user, bind, select_usr_with_privileges_by_id, lookup_user.
  now destruct (find _ (usr_with_privileges db)).
Qed.

Lemma find_update_where (i : Z) (f : usr_row -> usr_row) (rows : list usr_row) :
  (forall r, usr_id (f r) = usr_id r) ->
  forall j,
  find (fun r => usr_id r =? j) (map (update_where i f) rows) =
  option_map (update_where i f) (find (fun r => usr_id r =? j) rows).
Proof.
  intros Hf j. rewrite find_map. f_equal.
  induction rows as [|r rows IH]; simpl; [reflexivity|].
  assert (E : usr_id (update_where i f r) = usr_id r).
  { unfold update_where. destruct (usr_id r =? i); [apply Hf | reflexivity]. }
  rewrite E, IH. reflexivity.
Qed.

Lemma privileges_of_update (i j : Z) (user : UserWithoutId) (db : DB) :
  privileges_of (db_update_user i user db) j =
  if j =? i then privileges user else privileges_of db j.
Proof.
  unfold privileges_of, db_update_user. simpl.
  rewrite filter_app, map_app.
  assert (E1 : forall l,
    map snd (filter (fun p : Z * Privilege => fst p =? j) (map (pair i) l)) =
    if j =? i then l else []).
  { induction l as [|p l IH]; simpl; [now destruct (j =? i)|].
    rewrite (Z.eqb_sym i j). destruct (j =? i) eqn:E; simpl; [now rewrite IH|].
    exact IH. }
  rewrite E1.
  assert (E2 : forall l,
    map snd (filter (fun p : Z * Privilege => fst p =? j)
               (filter (fun p => negb (fst p =? i)) l)) =
    if j =? i then [] else map snd (filter (fun p => fst p =? j) l)).
  { induction l as [|[k p] l IH]; simpl; [now destruct (j =? i)|].
    destruct (j =? i) eqn:E.
    - apply Z.eqb_eq in E. subst j.
      destruct (k =? i) eqn:E'; simpl; [exact IH|]. now rewrite E'.
    - destruct (k =? i) eqn:E'; simpl.
      + apply Z.eqb_eq in E'. subst k. rewrite (Z.eqb_sym i j), E. exact IH.
      + destruct (k =? j); simpl; [now rewrite IH | exact IH]. }
  rewrite E2. destruct (j =? i); [reflexivity | apply app_nil_r].
Qed.

Lemma lookup_user_update (i j : Z) (user : UserWithoutId) (db : DB) :
  lookup_user (db_update_user i user db) j =
  if j =? i
  then option_map (fun _ => mkUser i user) (lookup_user db i)
  else lookup_user db j.
Proof.
  rewrite !lookup_user_rows. unfold db_update_user at 2. simpl usr.
  rewrite find_update_where by reflexivity.
  destruct (j =? i) eqn:E.
  - apply Z.eqb_eq in E. subst j.
    destruct (find _ (usr db)) as [r|] eqn:F; [|reflexivity]. simpl.
    apply find_some in F. destruct F as [_ F].
    unfold update_where. rewrite F. unfold user_of, parse_obj. simpl.
    apply Z.eqb_eq in F. rewrite F.
    now rewrite privileges_of_update, Z.eqb_refl, user_eta.
  - destruct (find _ (usr db)) as [r|] eqn:F; [|reflexivity]. simpl.
    apply find_some in F. destruct F as [_ F]. apply Z.eqb_eq in F.
    unfold update_where. rewrite F, E. unfold user_of, parse_obj. simpl.
    now rewrite privileges_of_update, F, E.
Qed.

Lemma privileges_of_create (j : Z) (new_user : UserWithoutId)
    (h : option string) (db : DB) :
  privileges_of (db_create_user new_user h db) j =
  (privileges_of db j ++
   (if j =? usr_id_seq db then privileges new_user else []))%list.
Proof.
  unfold privileges_of, db_create_user. simpl.
  rewrite filter_app, map_app. f_equal.
  induction (privileges new_user) as [|p l IH]; simpl; [now destruct (j =? _)|].
  rewrite (Z.eqb_sym (usr_id_seq db) j).
  destruct (j =? usr_id_seq db) eqn:E; simpl; [now rewrite IH | exact IH].
Qed.

Lemma wf_privileges_of_seq (db : DB) :
  wf_db db -> privileges_of db (usr_id_seq db) = [].
Proof.
  intros [_ H]. unfold privileges_of.
  induction (usr_privs db) as [|[k p] l IH]; simpl; [reflexivity|].
  assert (Hk : k < usr_id_seq db) by (apply (H (k, p)); now left).
  destruct (k =? usr_id_seq db) eqn:E; [apply Z.eqb_eq in E; lia|].
  apply IH. intros q Hq. apply H. now right.
Qed.

Lemma wf_find_seq (db : DB) :
  wf_db db -> find (fun r => usr_id r =? usr_id_seq db) (usr db) = None.
Proof.
  intros [H _]. apply find_none_iff. intros r Hr. apply H in Hr.
  apply Z.eqb_neq. lia.
Qed.

Lemma lookup_user_create (j : Z) (new_user : UserWithoutId)
    (h : option string) (db : DB) :
  wf_db db ->
  lookup_user (db_create_user new_user h db) j =
  if j =? usr_id_seq db then Some (mkUser (usr_id_seq db) new_user)
  else lookup_user db j.
Proof.
  intros W. rewrite !lookup_user_rows. unfold db_create_user at 2. simpl usr.
  rewrite find_app. destruct (j =? usr_id_seq db) eqn:E.
  - apply Z.eqb_eq in E. subst j. rewrite (wf_find_seq db W). simpl.
    rewrite Z.eqb_refl. simpl. unfold user_of, parse_obj. simpl.
    rewrite privileges_of_create, Z.eqb_refl, (wf_privileges_of_seq db W).
    simpl. now rewrite user_eta.
  - destruct (find _ (usr db)) as [r|] eqn:F; simpl.
    + apply find_some in F. destruct F as [_ F]. apply Z.eqb_eq in F.
      unfold user_of, parse_obj. simpl.
      rewrite privileges_of_create, F, E. now rewrite app_nil_r.
    + rewrite (Z.eqb_sym (usr_id_seq db) j), E. reflexivity.
Qed.

Lemma lookup_user_create_some (new_user : UserWithoutId) (h : option string)
    (db : DB) :
  exists u, lookup_user (db_create_user new_user h db) (usr_id_seq db) = Some u.
Proof.
  rewrite lookup_user_rows. unfold db_create_user at 2. simpl usr.
  rewrite find_app. destruct (find _ (usr db)) as [r|]; simpl; [eauto|].
  rewrite Z.eqb_refl. simpl. eauto.
Qed.

Lemma lookup_user_create_account (j : Z) (type : AccountType) (n : string)
    (db : DB) :
  lookup_user (db_create_account type n db) j = lookup_user db j.
Proof. reflexivity. Qed.

Section UserServiceFacts.

Context {pwd_context : CryptContext} {auth_service : AuthService}.

Lemma _update_user_closed (i : Z) (user : UserWithoutId) (db : DB) :
  _update_user i user db =
  match lookup_user db i with
  | Some _ => inr (mkUser i user, db_update_user i user db)
  | None => inl (NotFoundException "user" (str i))
  end.
Proof.
  unfold _update_user, bind at 1. unfold update_usr at 1, returning_id.
  rewrite lookup_user_rows.
  destruct (find _ (usr db)) as [r|] eqn:F; simpl; [|reflexivity].
  unfold bind at 1. unfold delete_usr_privs at 1.
  unfold bind at 1. rewrite for_each_insert_usr_privs.
  match goal with |- _get_user _ ?d = _ =>
    replace d with (db_update_user i user db) by reflexivity end.
  rewrite _get_user_lookup, lookup_user_update, Z.eqb_refl, lookup_user_rows, F.
  reflexivity.
Qed.

Lemma _create_user_closed (new_user : UserWithoutId) (password : option string)
    (db : DB) :
  _create_user new_user password db =
  match lookup_user (db_create_user new_user (hashed_password_of password) db)
          (usr_id_seq db) with
  | Some u => inr (u, db_create_user new_user (hashed_password_of password) db)
  | None => inl ValidationError
  end.
Proof.
  unfold _create_user, bind at 1. unfold insert_usr at 1.
  unfold bind at 1. rewrite for_each_insert_usr_privs.
  unfold bind, select_usr_with_privileges_by_id, parse_fetched.
  match goal with |- context [usr_with_privileges ?d] =>
    replace d with (db_create_user new_user (hashed_password_of password) db)
      by reflexivity end.
  unfold lookup_user. now destruct (find _ (usr_with_privileges _)).
Qed.

Lemma _create_user_returns (new_user : UserWithoutId) (password : option string)
    (db : DB) :
  exists u,
    _create_user new_user password db =
    inr (u, db_create_user new_user (hashed_password_of password) db).
Proof.
  rewrite _create_user_closed.
  destruct (lookup_user_create_some new_user (hashed_password_of password) db)
    as [u ->]. eauto.
Qed.

Lemma _create_user_wf (new_user : UserWithoutId) (password : option string)
    (db : DB) :
  wf_db db ->
  _create_user new_user password db =
  inr (mkUser (usr_id_seq db) new_user,
       db_create_user new_user (hashed_password_of password) db).
Proof.
  intros W. rewrite _create_user_closed, (lookup_user_create _ _ _ _ W).
  now rewrite Z.eqb_refl.
Qed.

End UserServiceFacts.

(** ** Status strings *)

Lemma string_of_uint_zero (d : Decimal.uint) :
  NilZero.string_of_uint d = "0" -> Nat.of_uint d = 0%nat.
Proof.
  destruct d; try reflexivity; intros H; unfold NilZero.string_of_uint in H;
    match type of H with
    | NilEmpty.string_of_uint ?d = _ =>
        pose proof (NilEmpty.usu d) as U; rewrite H in U; simpl in U;
        injection U as U; rewrite <- U; reflexivity
    end.
Qed.

Lemma deleted_some_status (n : nat) :
  deleted_some (delete_status n) = negb (Nat.eqb n 0).
Proof.
  unfold deleted_some, delete_status. f_equal.
  change (String.eqb ("DELETE " ++ NilZero.string_of_uint (Nat.to_uint n))
            "DELETE 0")
    with (String.eqb (NilZero.string_of_uint (Nat.to_uint n)) "0").
  destruct (String.eqb_spec (NilZero.string_of_uint (Nat.to_uint n)) "0") as [E|E].
  - apply string_of_uint_zero in E. rewrite Unsigned.of_to in E. now subst.
  - destruct n; [now elim E | reflexivity].
Qed.

Lemma length_filter_zero {A} (p : A -> bool) (l : list A) :
  negb (Nat.eqb (List.length (filter p l)) 0) = existsb p l.
Proof.
  induction l as [|a l IH]; simpl; [reflexivity|].
  destruct (p a); simpl; [reflexivity | exact IH].
Qed.

Lemma filter_negb_none {A} (p : A -> bool) (l : list A) :
  existsb p l = false -> filter (fun a => negb (p a)) l = l.
Proof.
  induction l as [|a l IH]; simpl; [reflexivity|].
  destruct (p a); simpl; [discriminate|]. intros H. now rewrite IH.
Qed.

Lemma existsb_find {A} (p : A -> bool) (l : list A) :
  existsb p l = is_not_None (find p l).
Proof.
  induction l as [|a l IH]; simpl; [reflexivity|].
  destruct (p a); [reflexivity | exact IH].
Qed.

(** ** Properties of the service *)

Section UserServiceProperties.

Context {pwd_context : CryptContext} {auth_service : AuthService}.

Lemma delete_user_closed (u : User) (user_id : Z) (db : DB) :
  with_db_transaction (delete_user (Some u) user_id) db =
  if holds_one_of [admin] u
  then (inr (is_not_None (lookup_user db user_id)), db_delete_user user_id db)
  else (inl PermissionDenied, db).
Proof.
  unfold with_db_transaction, delete_user, requires_user_privileges.
  destruct (holds_one_of [admin] u); [|reflexivity].
  unfold bind, delete_usr, ret.
  rewrite deleted_some_status, length_filter_zero, existsb_find.
  rewrite lookup_user_rows. now destruct (find _ (usr db)).
Qed.

Lemma lookup_user_deleted (user_id : Z) (db : DB) :
  lookup_user (db_delete_user user_id db) user_id = None.
Proof.
  rewrite lookup_user_rows. unfold db_delete_user. simpl.
  replace (find _ _) with (@None usr_row); [reflexivity|].
  symmetry. apply find_none_iff. intros r Hr. apply filter_In in Hr.
  destruct Hr as [_ Hr]. now destruct (usr_id r =? user_id).
Qed.

(** C9: [create_user] and [create_user_no_auth] treat the empty password as
    no password: both calls behave as the call without a password, and the
    row the call stores has a null [password]. *)
Theorem create_user_empty_password_is_none
    (current_user : option User) (new_user : UserWithoutId) (db : DB) :
  with_db_transaction (create_user_no_auth new_user (Some "")) db =
    with_db_transaction (create_user_no_auth new_user None) db /\
  with_db_transaction (create_user current_user new_user (Some "")) db =
    with_db_transaction (create_user current_user new_user None) db /\
  exists u,
    with_db_transaction (create_user_no_auth new_user (Some "")) db =
      (inr u, db_create_user new_user None db) /\
    usr (db_create_user new_user None db) =
      (usr db ++
       [mk_usr_row (usr_id_seq db) (name new_user) (description new_user) None
          (user_tag_id new_user) (transport_account_id new_user)
          (cashier_account_id new_user)])%list.
Proof.
  split; [reflexivity|]. split; [reflexivity|].
  destruct (_create_user_returns new_user (Some "") db) as [u Hu].
  exists u. split; [|reflexivity].
  apply with_db_transaction_inr. exact Hu.
Qed.

(** C5: [login_user] returns [None] and leaves the database as it was, both
    when no row has the user name and when a row has it but the password
    check against its stored [password] (null for a user without one) fails;
    the two outcomes are the same value. *)
Theorem login_user_failures_indistinguishable
    (username password : string) (db : DB) :
  lookup_row_by_name db username = None \/
  (exists row, lookup_row_by_name db username = Some row /\
               _check_password password (usr_password (view_usr row)) = false) ->
  with_db_transaction (login_user username password) db = (inr None, db).
Proof.
  unfold with_db_transaction, login_user, bind,
    select_usr_with_privileges_by_name, lookup_row_by_name.
  intros [H | [row [H C]]]; rewrite H; [reflexivity|].
  now rewrite C.
Qed.

(** C6: [logout_user] returns [False] and deletes nothing when the token does
    not decode or names another user than [current_user]; otherwise it
    deletes the session rows matching [(user id, session id)] and returns
    whether there was one. *)
Theorem logout_user_outcomes (current_user : User) (token : string) (db : DB) :
  (decode_user_jwt_payload token = None ->
   with_db_transaction (logout_user (Some current_user) token) db
   = (inr false, db)) /\
  (forall payload,
     decode_user_jwt_payload token = Some payload ->
     token_user_id payload <> id current_user ->
     with_db_transaction (logout_user (Some current_user) token) db
     = (inr false, db)) /\
  (forall payload,
     decode_user_jwt_payload token = Some payload ->
     token_user_id payload = id current_user ->
     let gone := existsb (session_matches (id current_user)
                            (token_session_id payload)) (usr_session db) in
     with_db_transaction (logout_user (Some current_user) token) db
     = (inr gone,
        db_delete_session (id current_user) (token_session_id payload) db) /\
     (gone = false ->
      db_delete_session (id current_user) (token_session_id payload) db = db)).
Proof.
  unfold with_db_transaction, logout_user, requires_user_privileges.
  split; [|split].
  - intros ->. reflexivity.
  - intros payload -> N.
    destruct (id current_user =? token_user_id payload) eqn:E; [|reflexivity].
    apply Z.eqb_eq in E. congruence.
  - intros payload -> E. rewrite <- E, Z.eqb_refl.
    unfold bind, delete_usr_session, ret. cbn [negb]. cbv beta.
    rewrite deleted_some_status, length_filter_zero.
    split; [reflexivity|].
    intros G. unfold db_delete_session.
    rewrite (filter_negb_none _ _ G). now destruct db.
Qed.

(** C8: for an administrator, [delete_user] returns [True] exactly when a
    row of [usr] had the id, and [False] without raising otherwise; it leaves
    no row with the id, so [get_user] on it then raises [NotFoundException]. *)
Theorem delete_user_outcome (current_user : option User) (user_id : Z) (db : DB) :
  authorized [admin] current_user ->
  exists deleted db',
    with_db_transaction (delete_user current_user user_id) db
      = (inr deleted, db') /\
    (deleted = true <-> exists r, In r (usr db) /\ usr_id r = user_id) /\
    (forall r, In r (usr db') <-> In r (usr db) /\ usr_id r <> user_id) /\
    (deleted = false -> db' = db) /\
    with_db_transaction (get_user current_user user_id) db'
      = (inl (NotFoundException "user" (str user_id)), db').
Proof.
  intros [u [-> [H|H]]]; [discriminate|].
  exists (is_not_None (lookup_user db user_id)), (db_delete_user user_id db).
  rewrite delete_user_closed, H. split; [reflexivity|].
  assert (L : is_not_None (lookup_user db user_id) =
              existsb (fun r => usr_id r =? user_id) (usr db)).
  { rewrite existsb_find, lookup_user_rows. now destruct (find _ (usr db)). }
  split; [|split; [|split]].
  - rewrite L, existsb_exists. split; intros [r [H1 H2]]; exists r;
      (split; [exact H1|]); [now apply Z.eqb_eq | now apply Z.eqb_eq].
  - intros r. unfold db_delete_user. simpl. rewrite filter_In.
    rewrite negb_true_iff, Z.eqb_neq. reflexivity.
  - rewrite L. intros G. unfold db_delete_user.
    rewrite (filter_negb_none _ _ G). now destruct db.
  - unfold with_db_transaction, get_user, requires_user_privileges.
    rewrite H, _get_user_lookup, lookup_user_deleted. reflexivity.
Qed.

(** C7: for an administrator, [update_user] raises [NotFoundException] when
    no row has the id; otherwise it returns, and stores, the id with exactly
    the supplied name, description, tag id, account ids and privileges, and
    leaves every other user as it was. *)
Theorem update_user_full_replace
    (current_user : option User) (user_id : Z) (user : UserWithoutId) (db : DB) :
  authorized [admin] current_user ->
  (lookup_user db user_id = None ->
   with_db_transaction (update_user current_user user_id user) db
   = (inl (NotFoundException "user" (str user_id)), db)) /\
  (lookup_user db user_id <> None ->
   exists db',
     with_db_transaction (update_user current_user user_id user) db
       = (inr (mkUser user_id user), db') /\
     lookup_user db' user_id = Some (mkUser user_id user) /\
     (forall p, In p (privileges_of db' user_id) <-> In p (privileges user)) /\
     (forall other, other <> user_id ->
                    lookup_user db' other = lookup_user db other)).
Proof.
  intros [u [-> [H|H]]]; [discriminate|].
  unfold with_db_transaction, update_user, requires_user_privileges.
  rewrite H, _update_user_closed.
  split; intros L.
  - now rewrite L.
  - destruct (lookup_user db user_id) as [u0|] eqn:E; [|congruence].
    exists (db_update_user user_id user db). split; [reflexivity|].
    split; [|split].
    + now rewrite lookup_user_update, Z.eqb_refl, E.
    + intros p. now rewrite privileges_of_update, Z.eqb_refl.
    + intros other N. rewrite lookup_user_update.
      apply Z.eqb_neq in N. now rewrite N.
Qed.

End UserServiceProperties.

(** ** Tag resolution and the promotions *)

Section Promotions.

Context {pwd_context : CryptContext} {auth_service : AuthService}.

Lemma guard_admin {A} (body : User -> Conn A) (a : User) :
  holds_one_of [admin] a = true ->
  requires_user_privileges [admin] body (Some a) = body a.
Proof. unfold requires_user_privileges. now intros ->. Qed.

Lemma authorized_admin (cu : option User) :
  authorized [admin] cu ->
  exists a, cu = Some a /\ holds_one_of [admin] a = true.
Proof. intros [a [-> [H|H]]]; [discriminate | eauto]. Qed.

Lemma create_user_with_tag_closed (a : User) (new_user : NewUser) (db : DB) :
  holds_one_of [admin] a = true ->
  create_user_with_tag (Some a) new_user db =
  create_user_with_tag_body new_user db.
Proof.
  intros H. unfold create_user_with_tag. rewrite (guard_admin _ _ H).
  unfold create_user_with_tag_body, bind, select_user_tag_id, resolve_tag.
  destruct (find _ (user_tag_table db)) as [t|]; simpl; [|reflexivity].
  unfold select_usr_with_privileges_by_user_tag_id, lookup_user_by_tag.
  now destruct (find _ (usr_with_privileges db)).
Qed.

Lemma promote_to_cashier_closed (a : User) (user_id : Z) (db : DB) :
  holds_one_of [admin] a = true ->
  promote_to_cashier (Some a) user_id db = promote_to_cashier_body user_id db.
Proof.
  intros H. unfold promote_to_cashier. rewrite (guard_admin _ _ H).
  unfold promote_to_cashier_body, bind at 1. rewrite _get_user_lookup.
  destruct (lookup_user db user_id) as [u|] eqn:L; [|reflexivity].
  destruct (existsb _ (privileges u)); [reflexivity|].
  unfold bind, insert_account. rewrite _update_user_closed.
  change (id (with_cashier_account (account_id_seq db) u)) with (id u).
  pose proof (lookup_user_id _ _ _ L) as E. rewrite E.
  match goal with |- context [lookup_user ?d user_id] =>
    change (lookup_user d user_id) with (lookup_user db user_id) end.
  rewrite L. unfold with_cashier_account. rewrite E. reflexivity.
Qed.

Lemma promote_to_finanzorga_closed (a : User) (user_id : Z) (db : DB) :
  holds_one_of [admin] a = true ->
  promote_to_finanzorga (Some a) user_id db =
  promote_to_finanzorga_body user_id db.
Proof.
  intros H. unfold promote_to_finanzorga. rewrite (guard_admin _ _ H).
  unfold promote_to_finanzorga_body, bind at 1. rewrite _get_user_lookup.
  destruct (lookup_user db user_id) as [u|] eqn:L; [|reflexivity].
  destruct (existsb _ (privileges u)); [reflexivity|].
  unfold bind, insert_account. rewrite _update_user_closed.
  change (id (with_transport_account (account_id_seq db) u)) with (id u).
  pose proof (lookup_user_id _ _ _ L) as E. rewrite E.
  match goal with |- context [lookup_user ?d user_id] =>
    change (lookup_user d user_id) with (lookup_user db user_id) end.
  rewrite L. unfold with_transport_account. rewrite E. reflexivity.
Qed.

End Promotions.

Lemma lookup_user_by_tag_create (new_user : NewUser) (t : Z) (db : DB) :
  wf_db db -> lookup_user_by_tag db t = None ->
  lookup_user_by_tag (db_create_user (tag_user new_user t) None db) t =
  Some (mkUser (usr_id_seq db) (tag_user new_user t)).
Proof.
  intros W N. rewrite lookup_user_by_tag_rows in *.
  unfold db_create_user at 2. simpl usr. rewrite find_app.
  destruct (find (bound_to t) (usr db)); [discriminate|]. simpl.
  unfold bound_to at 1. simpl. rewrite Z.eqb_refl. simpl.
  unfold user_of, parse_obj. simpl.
  rewrite privileges_of_create, Z.eqb_refl, (wf_privileges_of_seq db W).
  reflexivity.
Qed.

Section TagIdentity.

Context {pwd_context : CryptContext} {auth_service : AuthService}.

(** C3: for an administrator, [create_user_with_tag] raises
    [NotFoundException("user_tag", uid)] for an unknown uid; returns the user
    already bound to the resolved tag id and changes nothing; otherwise
    creates a user without privileges bound to that tag id. A second call
    with the same uid and any name returns the user of the first call and
    changes nothing, and when the first call created the user its stored
    name is the first call's. *)
Theorem create_user_with_tag_first_writer_wins
    (current_user : option User) (new_user : NewUser) (db : DB) :
  authorized [admin] current_user ->
  wf_db db ->
  (resolve_tag db (user_tag new_user) = None ->
   with_db_transaction (create_user_with_tag current_user new_user) db
   = (inl (NotFoundException "user_tag" (str (user_tag new_user))), db)) /\
  (forall t existing,
     resolve_tag db (user_tag new_user) = Some t ->
     lookup_user_by_tag db t = Some existing ->
     with_db_transaction (create_user_with_tag current_user new_user) db
     = (inr existing, db)) /\
  (forall t,
     resolve_tag db (user_tag new_user) = Some t ->
     lookup_user_by_tag db t = None ->
     let created := mkUser (usr_id_seq db) (tag_user new_user t) in
     with_db_transaction (create_user_with_tag current_user new_user) db
     = (inr created, db_create_user (tag_user new_user t) None db) /\
     privileges created = [] /\ user_tag_id created = Some t /\
     name created = new_name new_user /\
     lookup_user (db_create_user (tag_user new_user t) None db) (id created)
     = Some created) /\
  (forall u1 db1 retry,
     with_db_transaction (create_user_with_tag current_user new_user) db
     = (inr u1, db1) ->
     user_tag retry = user_tag new_user ->
     with_db_transaction (create_user_with_tag current_user retry) db1
     = (inr u1, db1) /\
     (forall t, resolve_tag db (user_tag new_user) = Some t ->
                lookup_user_by_tag db1 t = Some u1) /\
     (forall t, resolve_tag db (user_tag new_user) = Some t ->
                lookup_user_by_tag db t = None ->
                name u1 = new_name new_user)).
Proof.
  intros A W. destruct (authorized_admin _ A) as [a [-> Ha]].
  unfold with_db_transaction.
  assert (C : forall t, resolve_tag db (user_tag new_user) = Some t ->
                        lookup_user_by_tag db t = None ->
                        create_user_with_tag_body new_user db =
                        inr (mkUser (usr_id_seq db) (tag_user new_user t),
                             db_create_user (tag_user new_user t) None db)).
  { intros t R N. unfold create_user_with_tag_body. rewrite R, N.
    now rewrite (_create_user_wf _ _ _ W). }
  split; [|split; [|split]].
  - intros R. rewrite (create_user_with_tag_closed _ _ _ Ha).
    unfold create_user_with_tag_body. now rewrite R.
  - intros t existing R E. rewrite (create_user_with_tag_closed _ _ _ Ha).
    unfold create_user_with_tag_body. now rewrite R, E.
  - intros t R N. cbv zeta. rewrite (create_user_with_tag_closed _ _ _ Ha).
    rewrite (C t R N). repeat (split; [reflexivity|]).
    rewrite (lookup_user_create _ _ _ _ W). simpl id. now rewrite Z.eqb_refl.
  - intros u1 db1 retry. rewrite !(create_user_with_tag_closed _ _ _ Ha).
    destruct (resolve_tag db (user_tag new_user)) as [t|] eqn:R.
    2:{ unfold create_user_with_tag_body at 1. rewrite R. discriminate. }
    destruct (lookup_user_by_tag db t) as [existing|] eqn:E.
    + unfold create_user_with_tag_body at 1. rewrite R, E.
      intros H Hr. simpl in H. injection H as <- <-.
      unfold create_user_with_tag_body. rewrite Hr, R, E.
      split; [reflexivity|]. split.
      * intros t' [= <-]. exact E.
      * intros t' [= <-] N. congruence.
    + rewrite (C t eq_refl E). intros H Hr. simpl in H. injection H as <- <-.
      unfold create_user_with_tag_body. rewrite Hr.
      change (resolve_tag (db_create_user (tag_user new_user t) None db)
                (user_tag new_user))
        with (resolve_tag db (user_tag new_user)).
      rewrite R, (lookup_user_by_tag_create _ _ _ W E).
      split; [reflexivity|]. split.
      * intros t' [= <-]. now apply lookup_user_by_tag_create.
      * intros t' [= <-] _. reflexivity.
Qed.

End TagIdentity.

Section PromotionProperties.

Context {pwd_context : CryptContext} {auth_service : AuthService}.

Lemma lookup_user_by_tag_lookup (db : DB) (t : Z) (u : User) :
  lookup_user_by_tag db t = Some u -> lookup_user db (id u) <> None.
Proof.
  rewrite lookup_user_by_tag_rows, lookup_user_rows.
  destruct (find (bound_to t) (usr db)) as [r|] eqn:F; [|discriminate].
  intros [= <-]. apply find_some in F. destruct F as [F _]. simpl id.
  destruct (find _ (usr db)) eqn:N; [discriminate|].
  rewrite find_none_iff in N. specialize (N r F). simpl in N.
  now rewrite Z.eqb_refl in N.
Qed.

Lemma create_user_with_tag_body_lookup (new_user : NewUser) (db db' : DB)
    (u : User) :
  create_user_with_tag_body new_user db = inr (u, db') ->
  lookup_user db' (id u) <> None.
Proof.
  unfold create_user_with_tag_body.
  destruct (resolve_tag db _) as [t|]; [|discriminate].
  destruct (lookup_user_by_tag db t) as [e|] eqn:E.
  - intros [= <- <-]. now apply lookup_user_by_tag_lookup with t.
  - rewrite _create_user_closed.
    destruct (lookup_user _ (usr_id_seq db)) as [c|] eqn:L; [|discriminate].
    intros [= <- <-]. rewrite (lookup_user_id _ _ _ L). intros N.
    unfold hashed_password_of in *. congruence.
Qed.

Lemma promote_to_cashier_body_twice (user_id : Z) (db : DB) (u : User) :
  lookup_user db user_id = Some u ->
  exists u1 db1,
    promote_to_cashier_body user_id db = inr (u1, db1) /\
    promote_to_cashier_body user_id db1 = inr (u1, db1) /\
    lookup_user db1 user_id = Some u1 /\
    (In cashier (privileges u) -> u1 = u /\ db1 = db) /\
    (~ In cashier (privileges u) ->
     u1 = with_cashier_account (account_id_seq db) u /\
     db1 = db_update_user user_id u1
             (db_create_account internal ("Cashier account for " ++ name u) db)).
Proof.
  intros L. unfold promote_to_cashier_body at 1. rewrite L.
  destruct (existsb _ (privileges u)) eqn:H.
  - exists u, db. split; [reflexivity|]. split; [|split; [exact L|]].
    + unfold promote_to_cashier_body. now rewrite L, H.
    + apply holds_iff in H. split; [now intros _ | now intros N].
  - cbv zeta. eexists _, _. split; [reflexivity|].
    assert (L1 : lookup_user
                   (db_update_user user_id
                      (with_cashier_account (account_id_seq db) u)
                      (db_create_account internal
                         ("Cashier account for " ++ name u) db)) user_id
                 = Some (with_cashier_account (account_id_seq db) u)).
    { rewrite lookup_user_update, Z.eqb_refl, lookup_user_create_account, L.
      simpl. unfold with_cashier_account.
      now rewrite (lookup_user_id _ _ _ L). }
    split; [|split; [exact L1|]].
    + unfold promote_to_cashier_body. rewrite L1.
      replace (existsb _ _) with true; [reflexivity|].
      symmetry. apply holds_iff. simpl. apply in_or_app. right. now left.
    + apply holds_false_iff in H. split; [now intros N | now intros _].
Qed.

Lemma promote_to_finanzorga_body_twice (user_id : Z) (db : DB) (u : User) :
  lookup_user db user_id = Some u ->
  exists u1 db1,
    promote_to_finanzorga_body user_id db = inr (u1, db1) /\
    promote_to_finanzorga_body user_id db1 = inr (u1, db1) /\
    lookup_user db1 user_id = Some u1 /\
    (In finanzorga (privileges u) -> u1 = u /\ db1 = db) /\
    (~ In finanzorga (privileges u) ->
     u1 = with_transport_account (account_id_seq db) u /\
     db1 = db_update_user user_id u1
             (db_create_account internal
                ("Transport account for finanzorga " ++ name u) db)).
Proof.
  intros L. unfold promote_to_finanzorga_body at 1. rewrite L.
  destruct (existsb _ (privileges u)) eqn:H.
  - exists u, db. split; [reflexivity|]. split; [|split; [exact L|]].
    + unfold promote_to_finanzorga_body. now rewrite L, H.
    + apply holds_iff in H. split; [now intros _ | now intros N].
  - cbv zeta. eexists _, _. split; [reflexivity|].
    assert (L1 : lookup_user
                   (db_update_user user_id
                      (with_transport_account (account_id_seq db) u)
                      (db_create_account internal
                         ("Transport account for finanzorga " ++ name u) db))
                   user_id
                 = Some (with_transport_account (account_id_seq db) u)).
    { rewrite lookup_user_update, Z.eqb_refl, lookup_user_create_account, L.
      simpl. unfold with_transport_account.
      now rewrite (lookup_user_id _ _ _ L). }
    split; [|split; [exact L1|]].
    + unfold promote_to_finanzorga_body. rewrite L1.
      replace (existsb _ _) with true; [reflexivity|].
      symmetry. apply holds_iff. simpl. apply in_or_app. right. now left.
    + apply holds_false_iff in H. split; [now intros N | now intros _].
Qed.

Lemma count_occ_one_of_NoDup (l : list Privilege) (p : Privilege) :
  NoDup l -> In p l -> count_occ Privilege_eq_dec l p = 1%nat.
Proof.
  intros N I. rewrite (NoDup_count_occ Privilege_eq_dec) in N.
  specialize (N p). apply (count_occ_In Privilege_eq_dec) in I. lia.
Qed.

(** C4: for an administrator, [promote_to_cashier] raises
    [NotFoundException] for an absent id; returns a user who already holds
    [cashier] as stored, changing nothing; and for every stored user a second
    call returns the user of the first and changes nothing, so both calls
    give the same [cashier_account_id]. The promotion adds [cashier] once and
    only to a list without it, so the result holds it exactly once whenever
    the stored privileges had no duplicates. *)
Theorem promote_to_cashier_idempotent
    (current_user : option User) (user_id : Z) (db : DB) :
  authorized [admin] current_user ->
  (lookup_user db user_id = None ->
   with_db_transaction (promote_to_cashier current_user user_id) db
   = (inl (NotFoundException "user" (str user_id)), db)) /\
  (forall u,
     lookup_user db user_id = Some u -> In cashier (privileges u) ->
     with_db_transaction (promote_to_cashier current_user user_id) db
     = (inr u, db)) /\
  (forall u,
     lookup_user db user_id = Some u ->
     exists u1 db1,
       with_db_transaction (promote_to_cashier current_user user_id) db
       = (inr u1, db1) /\
       with_db_transaction (promote_to_cashier current_user user_id) db1
       = (inr u1, db1) /\
       lookup_user db1 user_id = Some u1 /\
       In cashier (privileges u1) /\
       count_occ Privilege_eq_dec (privileges u1) cashier
       = Nat.max 1 (count_occ Privilege_eq_dec (privileges u) cashier) /\
       (NoDup (privileges u) ->
        count_occ Privilege_eq_dec (privileges u1) cashier = 1%nat) /\
       (~ In cashier (privileges u) ->
        count_occ Privilege_eq_dec (privileges u1) cashier = 1%nat /\
        cashier_account_id u1 = Some (account_id_seq db) /\
        account db1 =
        (account db ++
         [mk_account_row (account_id_seq db) internal
            ("Cashier account for " ++ name u)])%list)).
Proof.
  intros A. destruct (authorized_admin _ A) as [a [-> Ha]].
  unfold with_db_transaction.
  split; [|split].
  - intros L. rewrite (promote_to_cashier_closed _ _ _ Ha).
    unfold promote_to_cashier_body. now rewrite L.
  - intros u L H. rewrite (promote_to_cashier_closed _ _ _ Ha).
    unfold promote_to_cashier_body. rewrite L.
    apply holds_iff in H. now rewrite H.
  - intros u L.
    destruct (promote_to_cashier_body_twice _ _ _ L)
      as [u1 [db1 [E1 [E2 [L1 [Hin Hout]]]]]].
    exists u1, db1. rewrite !(promote_to_cashier_closed _ _ _ Ha), E1, E2.
    split; [reflexivity|]. split; [reflexivity|]. split; [exact L1|].
    destruct (in_dec Privilege_eq_dec cashier (privileges u)) as [I|I].
    + destruct (Hin I) as [-> ->]. split; [exact I|].
      pose proof (proj1 (count_occ_In Privilege_eq_dec _ _) I) as G.
      split; [lia|]. split; [|contradiction].
      intros N. now apply count_occ_one_of_NoDup.
    + destruct (Hout I) as [-> ->].
      assert (G : count_occ Privilege_eq_dec
                    (privileges (with_cashier_account (account_id_seq db) u))
                    cashier = 1%nat).
      { simpl. rewrite count_occ_app.
        rewrite (proj1 (count_occ_not_In Privilege_eq_dec _ _) I).
        reflexivity. }
      split; [simpl; apply in_or_app; right; now left|].
      rewrite (proj1 (count_occ_not_In Privilege_eq_dec _ _) I).
      split; [exact G|]. split; [intros _; exact G|].
      intros _. split; [exact G|]. split; reflexivity.
Qed.

End PromotionProperties.

Section FinanzorgaProperties.

Context {pwd_context : CryptContext} {auth_service : AuthService}.

Lemma create_user_with_tag_body_returns (new_user : NewUser) (db : DB) :
  resolve_tag db (user_tag new_user) <> None ->
  exists u db', create_user_with_tag_body new_user db = inr (u, db').
Proof.
  intros R. unfold create_user_with_tag_body.
  destruct (resolve_tag db _) as [t|]; [|congruence].
  destruct (lookup_user_by_tag db t) as [e|]; [eauto|].
  destruct (_create_user_returns (tag_user new_user t) None db) as [u ->].
  eauto.
Qed.

Lemma promote_to_cashier_body_grants (user_id : Z) (db : DB) :
  lookup_user db user_id <> None ->
  exists u1 db1,
    promote_to_cashier_body user_id db = inr (u1, db1) /\
    lookup_user db1 user_id = Some u1 /\ In cashier (privileges u1).
Proof.
  destruct (lookup_user db user_id) as [u|] eqn:L; [intros _ | congruence].
  destruct (promote_to_cashier_body_twice _ _ _ L)
    as [u1 [db1 [E1 [_ [L1 [Hin Hout]]]]]].
  exists u1, db1. split; [exact E1|]. split; [exact L1|].
  destruct (in_dec Privilege_eq_dec cashier (privileges u)) as [I|I].
  - now destruct (Hin I) as [-> _].
  - destruct (Hout I) as [-> _]. simpl. apply in_or_app. right. now left.
Qed.

Lemma promote_to_finanzorga_body_grants (user_id : Z) (db : DB) (u : User) :
  lookup_user db user_id = Some u ->
  exists u1 db1,
    promote_to_finanzorga_body user_id db = inr (u1, db1) /\
    lookup_user db1 user_id = Some u1 /\ In finanzorga (privileges u1) /\
    incl (privileges u) (privileges u1).
Proof.
  intros L.
  destruct (promote_to_finanzorga_body_twice _ _ _ L)
    as [u1 [db1 [E1 [_ [L1 [Hin Hout]]]]]].
  exists u1, db1. split; [exact E1|]. split; [exact L1|].
  destruct (in_dec Privilege_eq_dec finanzorga (privileges u)) as [I|I].
  - destruct (Hin I) as [-> _]. split; [exact I | apply incl_refl].
  - destruct (Hout I) as [-> _]. simpl.
    split; [apply in_or_app; right; now left | now apply incl_appl].
Qed.

(** C10, as the service has it: for an administrator,
    [promote_to_finanzorga] on a user without
    [finanzorga] creates one account, the transport account, stores it as the
    user's [transport_account_id] and appends [finanzorga]; name,
    description, tag id, [cashier_account_id] and the other privileges stay,
    so the user holds [cashier] afterwards exactly if it did before, and
    every other user stays as it was. [create_finanzorga], which promotes to
    cashier first, returns a user holding both privileges. *)
Theorem promote_to_finanzorga_frame
    (current_user : option User) (user_id : Z) (db : DB) (u : User) :
  authorized [admin] current_user ->
  (lookup_user db user_id = Some u ->
   ~ In finanzorga (privileges u) ->
   exists u' db',
     with_db_transaction (promote_to_finanzorga current_user user_id) db
     = (inr u', db') /\
     lookup_user db' user_id = Some u' /\
     name u' = name u /\ description u' = description u /\
     user_tag_id u' = user_tag_id u /\
     cashier_account_id u' = cashier_account_id u /\
     transport_account_id u' = Some (account_id_seq db) /\
     privileges u' = (privileges u ++ [finanzorga])%list /\
     (In cashier (privileges u') <-> In cashier (privileges u)) /\
     account db' =
       (account db ++
        [mk_account_row (account_id_seq db) internal
           ("Transport account for finanzorga " ++ name u)])%list /\
     (forall other, other <> user_id ->
                    lookup_user db' other = lookup_user db other)) /\
  (forall current_terminal new_user,
     current_terminal <> None ->
     resolve_tag db (user_tag new_user) <> None ->
     exists f db',
       with_db_transaction
         (create_finanzorga current_terminal current_user new_user) db
       = (inr f, db') /\
       In cashier (privileges f) /\ In finanzorga (privileges f)).
Proof.
  intros A. destruct (authorized_admin _ A) as [a [-> Ha]].
  unfold with_db_transaction. split.
  - intros L N.
    destruct (promote_to_finanzorga_body_twice _ _ _ L)
      as [u1 [db1 [E1 [_ [L1 [_ Hout]]]]]].
    destruct (Hout N) as [-> ->].
    eexists _, _. rewrite (promote_to_finanzorga_closed _ _ _ Ha), E1.
    split; [reflexivity|]. split; [exact L1|].
    repeat (split; [reflexivity|]).
    split; [|split; [reflexivity|]].
    + simpl. rewrite in_app_iff. simpl. intuition congruence.
    + intros other O. rewrite lookup_user_update.
      apply Z.eqb_neq in O. now rewrite O.
  - intros ct new_user T R. destruct ct as [term|]; [|congruence].
    unfold create_finanzorga, requires_terminal. rewrite (guard_admin _ _ Ha).
    unfold bind at 1. rewrite (create_user_with_tag_closed _ _ _ Ha).
    destruct (create_user_with_tag_body_returns _ _ R) as [u0 [db0 E0]].
    rewrite E0. unfold bind at 1. rewrite (promote_to_cashier_closed _ _ _ Ha).
    destruct (promote_to_cashier_body_grants (id u0) db0
                (create_user_with_tag_body_lookup _ _ _ _ E0))
      as [u1 [db1 [E1 [L1 C1]]]].
    rewrite E1. unfold bind at 1.
    rewrite (promote_to_finanzorga_closed _ _ _ Ha).
    rewrite (lookup_user_id _ _ _ L1).
    destruct (promote_to_finanzorga_body_grants _ _ _ L1)
      as [u2 [db2 [E2 [L2 [F2 I2]]]]].
    rewrite E2. exists u2, db2. split; [reflexivity|].
    split; [now apply I2 | exact F2].
Qed.

End FinanzorgaProperties.

(** ** The effect of a public call *)

Section Effects.

Context {pwd_context : CryptContext} {auth_service : AuthService}.

Lemma guarded_inr {A} (required : list Privilege) (body : User -> Conn A)
    (cu : option User) (db db' : DB) (a : A) :
  requires_user_privileges required body cu db = inr (a, db') ->
  exists u, cu = Some u /\ body u db = inr (a, db') /\
            (required <> [] -> holds_one_of required u = true).
Proof.
  unfold requires_user_privileges. destruct cu as [u|]; [|discriminate].
  destruct required as [|p l]; [intros H; exists u; now repeat split|].
  destruct (holds_one_of (p :: l) u) eqn:G; [|discriminate].
  intros H. exists u. now repeat split.
Qed.

Lemma admin_guarded_inr {A} (body : User -> Conn A) (cu : option User)
    (db db' : DB) (a : A) :
  requires_user_privileges [admin] body cu db = inr (a, db') ->
  exists u, cu = Some u /\ body u db = inr (a, db') /\
            holds_one_of [admin] u = true.
Proof.
  intros H. apply guarded_inr in H. destruct H as [u [E [B G]]].
  exists u. repeat split; [exact E | exact B | apply G; discriminate].
Qed.

Lemma terminal_guarded_inr {A} (body : User -> Conn A) (ct : option Z)
    (cu : option User) (db db' : DB) (a : A) :
  requires_terminal [admin] body ct cu db = inr (a, db') ->
  exists u, body u db = inr (a, db') /\ holds_one_of [admin] u = true.
Proof.
  unfold requires_terminal. destruct ct; [|discriminate].
  intros H. apply admin_guarded_inr in H. destruct H as [u [_ [B G]]]. eauto.
Qed.

Lemma snd_with_db_transaction {A} (c : Conn A) (db : DB) :
  snd (with_db_transaction c db) = db \/
  exists a db', c db = inr (a, db') /\ snd (with_db_transaction c db) = db'.
Proof.
  unfold with_db_transaction. destruct (c db) as [e|[a db']]; [now left|].
  right. eauto.
Qed.

Lemma create_user_with_tag_effect (a : User) (new_user : NewUser)
    (db db' : DB) (u : User) :
  holds_one_of [admin] a = true ->
  create_user_with_tag (Some a) new_user db = inr (u, db') ->
  effect (OpCreateUserWithTag new_user) db db'.
Proof.
  intros Ha. rewrite (create_user_with_tag_closed _ _ _ Ha).
  unfold create_user_with_tag_body.
  destruct (resolve_tag db _) as [t|]; [|discriminate].
  destruct (lookup_user_by_tag db t) as [e|].
  - intros [= _ <-]. constructor.
  - destruct (_create_user_returns (tag_user new_user t) None db) as [c ->].
    intros [= _ <-]. constructor.
Qed.

Lemma promote_to_cashier_effect (a : User) (user_id : Z) (db db' : DB)
    (u : User) :
  holds_one_of [admin] a = true ->
  promote_to_cashier (Some a) user_id db = inr (u, db') ->
  effect (OpPromoteToCashier user_id) db db'.
Proof.
  intros Ha. rewrite (promote_to_cashier_closed _ _ _ Ha).
  unfold promote_to_cashier_body.
  destruct (lookup_user db user_id) as [u0|] eqn:L; [|discriminate].
  destruct (existsb _ (privileges u0)) eqn:H.
  - intros [= _ <-]. constructor.
  - intros [= _ <-]. constructor; [exact L | now apply holds_false_iff].
Qed.

Lemma promote_to_finanzorga_effect (a : User) (user_id : Z) (db db' : DB)
    (u : User) :
  holds_one_of [admin] a = true ->
  promote_to_finanzorga (Some a) user_id db = inr (u, db') ->
  effect (OpPromoteToFinanzorga user_id) db db'.
Proof.
  intros Ha. rewrite (promote_to_finanzorga_closed _ _ _ Ha).
  unfold promote_to_finanzorga_body.
  destruct (lookup_user db user_id) as [u0|] eqn:L; [|discriminate].
  destruct (existsb _ (privileges u0)) eqn:H.
  - intros [= _ <-]. constructor.
  - intros [= _ <-]. constructor; [exact L | now apply holds_false_iff].
Qed.

Lemma exec_effect (caller : Caller) (op : Op) (db : DB) :
  effect op db (exec caller op db).
Proof.
  destruct caller as [cu ct].
  destruct op; unfold exec; simpl current_user; simpl current_terminal;
    match goal with
    | |- effect _ _ (snd (with_db_transaction ?c _)) =>
        destruct (snd_with_db_transaction c db) as [-> | [r [db' [E ->]]]];
          [apply effect_unchanged|]
    end.
  - unfold create_user_no_auth in E.
    destruct (_create_user_returns new_user password db) as [u Hu].
    rewrite Hu in E. injection E as _ <-. constructor.
  - apply admin_guarded_inr in E. destruct E as [u [_ [E _]]].
    destruct (_create_user_returns new_user password db) as [u' Hu].
    rewrite Hu in E. injection E as _ <-. constructor.
  - apply terminal_guarded_inr in E. destruct E as [a [E Ha]].
    unfold bind in E.
    destruct (create_user_with_tag _ _ db) as [|[u0 db0]] eqn:E0; [discriminate|].
    destruct (promote_to_cashier _ _ db0) as [|[u1 db1]] eqn:E1; [discriminate|].
    injection E as _ <-.
    eapply effect_create_cashier;
      [eapply create_user_with_tag_effect | eapply promote_to_cashier_effect];
      eassumption.
  - apply terminal_guarded_inr in E. destruct E as [a [E Ha]].
    unfold bind in E.
    destruct (create_user_with_tag _ _ db) as [|[u0 db0]] eqn:E0; [discriminate|].
    destruct (promote_to_cashier _ _ db0) as [|[u1 db1]] eqn:E1; [discriminate|].
    destruct (promote_to_finanzorga _ _ db1) as [|[u2 db2]] eqn:E2;
      [discriminate|].
    injection E as _ <-.
    eapply effect_create_finanzorga;
      [eapply create_user_with_tag_effect | eapply promote_to_cashier_effect
       | eapply promote_to_finanzorga_effect];
      eassumption.
  - pose proof E as E'. apply admin_guarded_inr in E'.
    destruct E' as [a [-> [_ Ha]]].
    eapply create_user_with_tag_effect; eassumption.
  - pose proof E as E'. apply admin_guarded_inr in E'.
    destruct E' as [a [-> [_ Ha]]].
    eapply promote_to_cashier_effect; eassumption.
  - pose proof E as E'. apply admin_guarded_inr in E'.
    destruct E' as [a [-> [_ Ha]]].
    eapply promote_to_finanzorga_effect; eassumption.
  - apply admin_guarded_inr in E. destruct E as [a [_ [E _]]].
    injection E as _ <-. constructor.
  - apply admin_guarded_inr in E. destruct E as [a [_ [E _]]].
    rewrite _get_user_lookup in E.
    destruct (lookup_user db user_id); [|discriminate].
    injection E as _ <-. constructor.
  - apply admin_guarded_inr in E. destruct E as [a [_ [E _]]].
    rewrite _update_user_closed in E.
    destruct (lookup_user db user_id) eqn:L; [|discriminate].
    injection E as _ <-. constructor. congruence.
  - apply admin_guarded_inr in E. destruct E as [a [_ [E _]]].
    injection E as _ <-. apply effect_delete_user.
  - apply admin_guarded_inr in E. destruct E as [a [_ [E _]]].
    injection E as _ <-. apply effect_link_cashier.
  - apply admin_guarded_inr in E. destruct E as [a [_ [E _]]].
    injection E as _ <-. apply effect_link_transport.
  - unfold login_user, bind, select_usr_with_privileges_by_name in E.
    destruct (find _ (usr_with_privileges db)) as [row|];
      [|injection E as _ <-; constructor].
    destruct (negb _); [injection E as _ <-; constructor|].
    injection E as _ <-.
    apply (effect_login _ _ (id (parse_obj row))).
  - apply guarded_inr in E. destruct E as [u [_ [E _]]].
    destruct (decode_user_jwt_payload token0) as [payload|];
      [|injection E as _ <-; constructor].
    destruct (negb _); [injection E as _ <-; constructor|].
    injection E as _ <-.
    apply (effect_logout _ (id u) (token_session_id payload)).
Qed.

End Effects.

(** ** Invariants of the tables *)

Lemma lookup_user_row (db : DB) (i : Z) (u : User) :
  lookup_user db i = Some u ->
  exists r, In r (usr db) /\ usr_id r = i /\ u = user_of db r.
Proof.
  rewrite lookup_user_rows.
  destruct (find _ (usr db)) as [r|] eqn:F; [|discriminate].
  intros [= <-]. apply find_some in F. destruct F as [F E].
  exists r. repeat split; [exact F | now apply Z.eqb_eq].
Qed.

Lemma lookup_user_below_seq (db : DB) (i : Z) (u : User) :
  wf_db db -> lookup_user db i = Some u -> i < usr_id_seq db.
Proof.
  intros [W _] L. destruct (lookup_user_row _ _ _ L) as [r [R [<- _]]].
  now apply W.
Qed.

Lemma In_update_where (i : Z) (f : usr_row -> usr_row) (rows : list usr_row)
    (r' : usr_row) :
  In r' (map (update_where i f) rows) ->
  exists r, In r rows /\
            ((usr_id r = i /\ r' = f r) \/ (usr_id r <> i /\ r' = r)).
Proof.
  rewrite in_map_iff. intros [r [E R]]. exists r. split; [exact R|].
  unfold update_where in E. destruct (usr_id r =? i) eqn:C.
  - left. apply Z.eqb_eq in C. now split.
  - right. apply Z.eqb_neq in C. now split.
Qed.

Lemma wf_db_create_user (new_user : UserWithoutId) (h : option string) (db : DB) :
  wf_db db -> wf_db (db_create_user new_user h db).
Proof.
  intros [W1 W2]. unfold wf_db, db_create_user. simpl. split.
  - intros r R. apply in_app_or in R. destruct R as [R|[<-|[]]].
    + apply W1 in R. lia.
    + simpl. lia.
  - intros p P. apply in_app_or in P. destruct P as [P|P].
    + apply W2 in P. lia.
    + apply in_map_iff in P. destruct P as [q [<- _]]. simpl. lia.
Qed.

Lemma wf_db_update_user (i : Z) (user : UserWithoutId) (db : DB) :
  wf_db db -> lookup_user db i <> None -> wf_db (db_update_user i user db).
Proof.
  intros W L. destruct (lookup_user db i) as [u|] eqn:E; [|congruence].
  pose proof (lookup_user_below_seq _ _ _ W E) as B.
  destruct W as [W1 W2]. unfold wf_db, db_update_user. simpl. split.
  - intros r' R. apply In_update_where in R.
    destruct R as [r [R [[Hi ->]|[Hi ->]]]]; [simpl|]; now apply W1.
  - intros p P. apply in_app_or in P. destruct P as [P|P].
    + apply filter_In in P. now apply W2.
    + apply in_map_iff in P. destruct P as [q [<- _]]. exact B.
Qed.

Lemma wf_db_same_users (db db' : DB) :
  usr db' = usr db -> usr_privs db' = usr_privs db ->
  usr_id_seq db' = usr_id_seq db -> wf_db db -> wf_db db'.
Proof. unfold wf_db. now intros -> -> ->. Qed.

Lemma wf_db_delete_user (i : Z) (db : DB) :
  wf_db db -> wf_db (db_delete_user i db).
Proof.
  intros [W1 W2]. split; [|exact W2].
  intros r R. simpl in R. apply filter_In in R. now apply W1.
Qed.

Lemma wf_db_set_column (i : Z) (f : usr_row -> usr_row) (db : DB) :
  (forall r, usr_id (f r) = usr_id r) ->
  wf_db db -> wf_db (set_usr db (map (update_where i f) (usr db))).
Proof.
  intros Hf [W1 W2]. split; [|exact W2].
  intros r' R. simpl in R. apply In_update_where in R.
  destruct R as [r [R [[_ ->]|[_ ->]]]]; [rewrite Hf|]; now apply W1.
Qed.

Lemma wf_db_effect (op : Op) (db db' : DB) :
  effect op db db' -> wf_db db -> wf_db db'.
Proof.
  induction 1; intros W; auto using wf_db_create_user, wf_db_delete_user.
  - apply wf_db_update_user; [exact W|].
    rewrite lookup_user_create_account. congruence.
  - apply wf_db_update_user; [exact W|].
    rewrite lookup_user_create_account. congruence.
  - now apply wf_db_update_user.
  - now apply wf_db_set_column.
  - now apply wf_db_set_column.
Qed.

(** *** Cashiers have a cashier account *)

Lemma cashier_linked_rows (db : DB) : cashier_linked db <-> rows_linked db.
Proof.
  unfold cashier_linked, rows_linked. rewrite users_rows. split.
  - intros H r R. apply (H (user_of db r)). now apply in_map.
  - intros H u U. apply in_map_iff in U. destruct U as [r [<- R]].
    exact (H r R).
Qed.

Lemma rows_linked_create_user (new_user : UserWithoutId) (h : option string)
    (db : DB) :
  wf_db db -> linked new_user -> rows_linked db ->
  rows_linked (db_create_user new_user h db).
Proof.
  intros W N H r R. rewrite privileges_of_create.
  unfold db_create_user in R. simpl in R. apply in_app_or in R.
  destruct R as [R|[<-|[]]].
  - assert (B : usr_id r < usr_id_seq db) by now apply (proj1 W).
    replace (usr_id r =? usr_id_seq db) with false
      by (symmetry; apply Z.eqb_neq; lia).
    rewrite app_nil_r. now apply H.
  - simpl. rewrite Z.eqb_refl, (wf_privileges_of_seq db W). exact N.
Qed.

Lemma rows_linked_update_user (i : Z) (user : UserWithoutId) (db : DB) :
  linked user -> rows_linked db -> rows_linked (db_update_user i user db).
Proof.
  intros N H r' R. rewrite privileges_of_update.
  unfold db_update_user in R. simpl in R. apply In_update_where in R.
  destruct R as [r [R [[Hi ->]|[Hi ->]]]].
  - simpl. rewrite Hi, Z.eqb_refl. exact N.
  - apply Z.eqb_neq in Hi. rewrite Hi. now apply H.
Qed.

Lemma rows_linked_delete_user (i : Z) (db : DB) :
  rows_linked db -> rows_linked (db_delete_user i db).
Proof.
  intros H r R. simpl in R. apply filter_In in R. now apply H.
Qed.

Lemma rows_linked_link_cashier (i a : Z) (db : DB) :
  rows_linked db -> rows_linked (db_link_cashier_account i a db).
Proof.
  intros H r' R. simpl in R. apply In_update_where in R.
  destruct R as [r [R [[_ ->]|[_ ->]]]]; [discriminate | exact (H r R)].
Qed.

Lemma rows_linked_link_transport (i a : Z) (db : DB) :
  rows_linked db -> rows_linked (db_link_transport_account i a db).
Proof.
  intros H r' R. simpl in R. apply In_update_where in R.
  destruct R as [r [R [[_ ->]|[_ ->]]]]; exact (H r R).
Qed.

Lemma rows_linked_lookup (db : DB) (i : Z) (u : User) :
  rows_linked db -> lookup_user db i = Some u -> linked u.
Proof.
  intros H L. apply cashier_linked_rows in H. apply (H u).
  now apply lookup_user_In with i.
Qed.

Lemma rows_linked_effect (op : Op) (db db' : DB) :
  effect op db db' -> supplies_linked op -> wf_db db -> rows_linked db ->
  rows_linked db'.
Proof.
  intros E.
  induction E as [ | | | | i u db Lu Nu | i u db Lu Nu
                   | nu i db db1 db2 E1 IH1 E2 IH2
                   | nu i j db db1 db2 db3 E1 IH1 E2 IH2 E3 IH3
                   | | | | | | ];
    intros S W K; auto using rows_linked_create_user,
    rows_linked_delete_user, rows_linked_link_cashier,
    rows_linked_link_transport, rows_linked_update_user.
  - apply rows_linked_create_user; [exact W | | exact K]. now intros [].
  - apply rows_linked_update_user; [|exact K]. now intros _.
  - apply rows_linked_update_user; [|exact K].
    pose proof (rows_linked_lookup _ _ _ K Lu) as Hu.
    unfold linked in *. simpl. rewrite in_app_iff. simpl.
    intros [C|[C|[]]]; [now apply Hu | discriminate].
  - apply IH2; [exact I | | now apply IH1].
    now apply wf_db_effect with (1 := E1).
  - assert (W1 : wf_db db1) by now apply wf_db_effect with (1 := E1).
    assert (W2 : wf_db db2) by now apply wf_db_effect with (1 := E2).
    apply IH3; [exact I | exact W2|].
    apply IH2; [exact I | exact W1|]. now apply IH1.
Qed.

(** *** Grants are kept *)









(** ** Invariants of the reachable states *)

Section Reachability.

Context {pwd_context : CryptContext} {auth_service : AuthService}.

Lemma reachable_wf_db (allowed : Op -> Prop) (db0 db : DB) :
  reachable_by allowed db0 db -> wf_db db0 -> wf_db db.
Proof.
  induction 1 as [|caller op db R IH A]; intros W; [exact W|].
  apply wf_db_effect with (1 := exec_effect caller op db). now apply IH.
Qed.

Lemma reachable_rows_linked (db0 db : DB) :
  reachable_by supplies_linked db0 db -> wf_db db0 -> rows_linked db0 ->
  rows_linked db.
Proof.
  induction 1 as [|caller op db R IH A]; intros W K; [exact K|].
  apply rows_linked_effect with (1 := exec_effect caller op db);
    [exact A | now apply reachable_wf_db with (1 := R) | now apply IH].
Qed.

(** C1, as the service has it: from a database in which every holder of
    [cashier] has a cashier account, every state reached by public calls is
    again such a database, provided the users handed to [create_user],
    [create_user_no_auth] and [update_user] are themselves such users; these
    three store the combination they are given. [promote_to_cashier] on a
    user without [cashier] creates the account, links it and grants the
    privilege in the one call. *)
Theorem cashier_linked_preserved
    (db0 db : DB) (current_user : option User) (user_id : Z) (u : User) :
  wf_db db0 -> cashier_linked db0 ->
  reachable_by supplies_linked db0 db ->
  cashier_linked db /\
  (authorized [admin] current_user ->
   lookup_user db user_id = Some u -> ~ In cashier (privileges u) ->
   exists u1 db1,
     with_db_transaction (promote_to_cashier current_user user_id) db
     = (inr u1, db1) /\
     lookup_user db1 user_id = Some u1 /\
     In cashier (privileges u1) /\
     cashier_account_id u1 = Some (account_id_seq db) /\
     account db1 =
       (account db ++
        [mk_account_row (account_id_seq db) internal
           ("Cashier account for " ++ name u)])%list /\
     cashier_linked db1).
Proof.
  intros W K R.
  assert (Kdb : rows_linked db).
  { apply reachable_rows_linked with (1 := R); [exact W|].
    now apply cashier_linked_rows. }
  split; [now apply cashier_linked_rows|].
  intros A L N. destruct (authorized_admin _ A) as [a [-> Ha]].
  destruct (promote_to_cashier_body_twice _ _ _ L)
    as [u1 [db1 [E1 [_ [L1 [_ Hout]]]]]].
  destruct (Hout N) as [Hu Hdb].
  exists u1, db1. unfold with_db_transaction.
  rewrite (promote_to_cashier_closed _ _ _ Ha), E1.
  split; [reflexivity|]. split; [exact L1|]. subst u1.
  split; [simpl; apply in_or_app; right; now left|].
  split; [reflexivity|]. split; [now subst db1|].
  apply cashier_linked_rows. subst db1.
  apply rows_linked_update_user; [now intros _ | exact Kdb].
Qed.

End Reachability.

(** ** Creating a user, logging in and out *)

Lemma privileges_of_create_old (j : Z) (new_user : UserWithoutId)
    (h : option string) (db : DB) :
  j < usr_id_seq db ->
  privileges_of (db_create_user new_user h db) j = privileges_of db j.
Proof.
  intros B. rewrite privileges_of_create.
  replace (j =? usr_id_seq db) with false by (symmetry; apply Z.eqb_neq; lia).
  apply app_nil_r.
Qed.

Lemma users_create (new_user : UserWithoutId) (h : option string) (db : DB) :
  wf_db db ->
  users (db_create_user new_user h db) =
  (users db ++ [mkUser (usr_id_seq db) new_user])%list.
Proof.
  intros W. rewrite !users_rows. unfold db_create_user at 2. simpl usr.
  rewrite map_app. f_equal.
  - apply map_ext_in. intros r R. unfold user_of, parse_obj. simpl.
    rewrite privileges_of_create_old; [reflexivity | now apply (proj1 W)].
  - simpl. unfold user_of, parse_obj. simpl.
    rewrite privileges_of_create, Z.eqb_refl, (wf_privileges_of_seq db W).
    simpl. now rewrite user_eta.
Qed.

Lemma lookup_row_by_name_create (new_user : UserWithoutId) (h : option string)
    (db : DB) :
  wf_db db -> lookup_row_by_name db (name new_user) = None ->
  lookup_row_by_name (db_create_user new_user h db) (name new_user) =
  Some (mk_view_row
          (mk_usr_row (usr_id_seq db) (name new_user) (description new_user) h
             (user_tag_id new_user) (transport_account_id new_user)
             (cashier_account_id new_user))
          (privileges new_user)).
Proof.
  unfold lookup_row_by_name, usr_with_privileges. intros W.
  rewrite !find_map. unfold db_create_user at 2. simpl usr.
  rewrite find_app. simpl.
  destruct (find _ (usr db)); [discriminate|]. intros _. simpl.
  rewrite String.eqb_refl. simpl.
  rewrite privileges_of_create, Z.eqb_refl, (wf_privileges_of_seq db W).
  reflexivity.
Qed.

Lemma filter_sessions_fresh (user_id : Z) (db : DB) :
  sessions_fresh db ->
  filter (fun s => negb (session_matches user_id (usr_session_id_seq db) s))
    (usr_session db ++ [mk_usr_session_row (usr_session_id_seq db) user_id])
  = usr_session db.
Proof.
  intros F. rewrite filter_app. simpl. unfold session_matches at 2. simpl.
  rewrite !Z.eqb_refl. simpl. rewrite app_nil_r.
  apply filter_negb_none. rewrite existsb_find.
  replace (find _ _) with (@None usr_session_row); [reflexivity|].
  symmetry. apply find_none_iff. intros s S. apply F in S.
  unfold session_matches. apply andb_false_iff. right. apply Z.eqb_neq. lia.
Qed.

Section Sessions.

Context {pwd_context : CryptContext} {auth_service : AuthService}.

Lemma login_user_closed (username password : string) (db : DB)
    (row : usr_with_privileges_row) :
  lookup_row_by_name db username = Some row ->
  _check_password password (usr_password (view_usr row)) = true ->
  login_user username password db =
  inr (Some (mkUserLoginSuccess (parse_obj row)
               (create_user_access_token
                  (mkUserTokenMetadata (usr_id (view_usr row))
                     (usr_session_id_seq db)))),
       db_create_session (usr_id (view_usr row)) db).
Proof.
  unfold lookup_row_by_name, login_user, bind,
    select_usr_with_privileges_by_name.
  intros -> C. rewrite C. reflexivity.
Qed.

Lemma logout_user_closed (u : User) (token : string) (db : DB)
    (payload : UserTokenMetadata) :
  decode_user_jwt_payload token = Some payload ->
  token_user_id payload = id u ->
  logout_user (Some u) token db =
  inr (existsb (session_matches (id u) (token_session_id payload))
         (usr_session db),
       db_delete_session (id u) (token_session_id payload) db).
Proof.
  intros D E. unfold logout_user, requires_user_privileges. rewrite D.
  rewrite <- E, Z.eqb_refl. unfold bind, delete_usr_session, ret.
  cbn [negb]. cbv beta.
  now rewrite deleted_some_status, length_filter_zero.
Qed.

(** X1: for an administrator, [create_user] on a database whose ids were
    drawn from the counter returns the supplied user under the next id of the
    counter, an id no user had; a read of that id then returns this user, the
    listed users are the former ones followed by it, and every other id reads
    as before. [create_user_no_auth] does the same for any caller. *)
Theorem create_user_returns_payload
    (current_user : option User) (new_user : UserWithoutId)
    (password : option string) (db : DB) :
  authorized [admin] current_user ->
  wf_db db ->
  exists db',
    with_db_transaction (create_user current_user new_user password) db
    = (inr (mkUser (usr_id_seq db) new_user), db') /\
    with_db_transaction (create_user_no_auth new_user password) db
    = (inr (mkUser (usr_id_seq db) new_user), db') /\
    lookup_user db (usr_id_seq db) = None /\
    with_db_transaction (get_user current_user (usr_id_seq db)) db'
    = (inr (mkUser (usr_id_seq db) new_user), db') /\
    users db' = (users db ++ [mkUser (usr_id_seq db) new_user])%list /\
    (forall other, other <> usr_id_seq db ->
                   lookup_user db' other = lookup_user db other) /\
    wf_db db'.
Proof.
  intros A W. destruct (authorized_admin _ A) as [a [-> Ha]].
  exists (db_create_user new_user (hashed_password_of password) db).
  unfold with_db_transaction, create_user, create_user_no_auth, get_user.
  rewrite !(guard_admin _ _ Ha), (_create_user_wf _ _ _ W), _get_user_lookup.
  rewrite (lookup_user_create _ _ _ _ W), Z.eqb_refl.
  split; [reflexivity|]. split; [reflexivity|]. split.
  { rewrite lookup_user_rows, (wf_find_seq db W). reflexivity. }
  split; [reflexivity|]. split; [now apply users_create|]. split.
  - intros other O. rewrite (lookup_user_create _ _ _ _ W).
    apply Z.eqb_neq in O. now rewrite O.
  - now apply wf_db_create_user.
Qed.

(** X2: a user created by an administrator with a non-empty password, under
    a name no row has, can log in with that name and password, provided the
    password context verifies a password against its own digest: [login_user]
    returns the created user and the token the auth service makes for the
    user's id and the next session id, and opens that session. *)
Theorem create_user_then_login
    (current_user : option User) (new_user : UserWithoutId)
    (password : string) (db : DB) :
  authorized [admin] current_user ->
  wf_db db ->
  password <> "" ->
  lookup_row_by_name db (name new_user) = None ->
  pwd_context_verify password (Some (pwd_context_hash password)) = true ->
  exists db1,
    with_db_transaction (create_user current_user new_user (Some password)) db
    = (inr (mkUser (usr_id_seq db) new_user), db1) /\
    with_db_transaction (login_user (name new_user) password) db1
    = (inr (Some (mkUserLoginSuccess (mkUser (usr_id_seq db) new_user)
                    (create_user_access_token
                       (mkUserTokenMetadata (usr_id_seq db)
                          (usr_session_id_seq db))))),
       db_create_session (usr_id_seq db) db1).
Proof.
  intros A W P N V. destruct (authorized_admin _ A) as [a [-> Ha]].
  exists (db_create_user new_user (hashed_password_of (Some password)) db).
  unfold with_db_transaction, create_user.
  rewrite (guard_admin _ _ Ha), (_create_user_wf _ _ _ W).
  split; [reflexivity|].
  rewrite (login_user_closed _ _ _ _ (lookup_row_by_name_create _ _ _ W N)).
  - unfold parse_obj. simpl. now rewrite user_eta.
  - simpl. apply String.eqb_neq in P. rewrite P. exact V.
Qed.

(** X3: when session ids were drawn from the counter and the auth service
    decodes the token it makes for this login, a successful [login_user] followed by
    [logout_user] of the returned user with the returned token returns
    [True] and leaves the sessions and the users that were there before the
    login; the same logout once more returns [False]. *)
Theorem login_then_logout
    (username password : string) (db : DB) (row : usr_with_privileges_row) :
  sessions_fresh db ->
  lookup_row_by_name db username = Some row ->
  _check_password password (usr_password (view_usr row)) = true ->
  decode_user_jwt_payload
    (create_user_access_token
       (mkUserTokenMetadata (usr_id (view_usr row)) (usr_session_id_seq db)))
  = Some (mkUserTokenMetadata (usr_id (view_usr row)) (usr_session_id_seq db)) ->
  exists s db1 db2,
    with_db_transaction (login_user username password) db = (inr (Some s), db1) /\
    user s = parse_obj row /\
    usr_session db1 =
      (usr_session db ++
       [mk_usr_session_row (usr_session_id_seq db) (id (user s))])%list /\
    with_db_transaction (logout_user (Some (user s)) (token s)) db1
    = (inr true, db2) /\
    usr_session db2 = usr_session db /\
    users db2 = users db /\
    with_db_transaction (logout_user (Some (user s)) (token s)) db2
    = (inr false, db2).
Proof.
  intros F L C D.
  eexists _, _, _. unfold with_db_transaction.
  rewrite (login_user_closed _ _ _ _ L C).
  split; [reflexivity|]. split; [reflexivity|]. split; [reflexivity|].
  cbn [user token].
  rewrite (logout_user_closed _ _ _ _ D) by reflexivity.
  cbn [token_session_id token_user_id].
  assert (E : usr_session
                (db_delete_session (id (parse_obj row)) (usr_session_id_seq db)
                   (db_create_session (usr_id (view_usr row)) db))
              = usr_session db).
  { unfold db_delete_session, db_create_session. simpl usr_session.
    now apply filter_sessions_fresh. }
  split; [|split; [exact E | split; [reflexivity|]]].
  - f_equal. f_equal. unfold db_create_session. simpl usr_session.
    rewrite existsb_app. simpl. unfold session_matches at 2. simpl.
    rewrite !Z.eqb_refl. simpl. apply orb_true_r.
  - rewrite (logout_user_closed _ _ _ _ D) by reflexivity.
    cbn [token_session_id token_user_id].
    f_equal.
    + f_equal. rewrite E. rewrite existsb_find.
      replace (find _ _) with (@None usr_session_row); [reflexivity|].
      symmetry. apply find_none_iff. intros s S. apply F in S.
      unfold session_matches. apply andb_false_iff. right.
      apply Z.eqb_neq. lia.
    + unfold db_delete_session at 1.
      rewrite filter_negb_none; [now destruct (db_delete_session _ _ _)|].
      rewrite E, existsb_find.
      replace (find _ _) with (@None usr_session_row); [reflexivity|].
      symmetry. apply find_none_iff. intros s S. apply F in S.
      unfold session_matches. apply andb_false_iff. right.
      apply Z.eqb_neq. lia.
Qed.

End Sessions.

(** ** Linking, listing and deleting *)

Lemma set_usr_same (db : DB) : set_usr db (usr db) = db.
Proof. now destruct db. Qed.

Lemma map_update_where_absent (i : Z) (f : usr_row -> usr_row)
    (rows : list usr_row) :
  find (fun r => usr_id r =? i) rows = None ->
  map (update_where i f) rows = rows.
Proof.
  intros N. rewrite find_none_iff in N.
  rewrite <- (map_id rows) at 2. apply map_ext_in. intros r R.
  unfold update_where. now rewrite (N r R).
Qed.

Lemma lookup_user_set_column (i j : Z) (f : usr_row -> usr_row)
    (g : User -> User) (db : DB) :
  (forall r, usr_id (f r) = usr_id r) ->
  (forall d r, user_of d (f r) = g (user_of d r)) ->
  lookup_user (set_usr db (map (update_where i f) (usr db))) j =
  if j =? i then option_map g (lookup_user db i) else lookup_user db j.
Proof.
  intros Hf Hg. rewrite !lookup_user_rows. simpl usr.
  rewrite (find_update_where _ _ _ Hf).
  assert (P : forall r, user_of (set_usr db (map (update_where i f) (usr db))) r
                        = user_of db r) by reflexivity.
  destruct (j =? i) eqn:E.
  - apply Z.eqb_eq in E. subst j.
    destruct (find _ (usr db)) as [r|] eqn:F; [|reflexivity]. simpl.
    apply find_some in F. destruct F as [_ F].
    unfold update_where. now rewrite F, P, Hg.
  - destruct (find _ (usr db)) as [r|] eqn:F; [|reflexivity]. simpl.
    apply find_some in F. destruct F as [_ F]. apply Z.eqb_eq in F.
    unfold update_where. now rewrite F, E, P.
Qed.

Lemma lookup_user_link_cashier (i j a : Z) (db : DB) :
  lookup_user (db_link_cashier_account i a db) j =
  if j =? i then option_map (relink_cashier a) (lookup_user db i)
  else lookup_user db j.
Proof. now apply lookup_user_set_column. Qed.

Lemma lookup_user_link_transport (i j a : Z) (db : DB) :
  lookup_user (db_link_transport_account i a db) j =
  if j =? i then option_map (relink_transport a) (lookup_user db i)
  else lookup_user db j.
Proof. now apply lookup_user_set_column. Qed.

Lemma find_filter_other (i j : Z) (rows : list usr_row) :
  j <> i ->
  find (fun r => usr_id r =? j) (filter (fun r => negb (usr_id r =? i)) rows)
  = find (fun r => usr_id r =? j) rows.
Proof.
  intros N. induction rows as [|r rows IH]; simpl; [reflexivity|].
  destruct (usr_id r =? i) eqn:E; simpl.
  - apply Z.eqb_eq in E.
    replace (usr_id r =? j) with false by (symmetry; apply Z.eqb_neq; lia).
    exact IH.
  - now rewrite IH.
Qed.

Lemma users_delete (i : Z) (db : DB) :
  users (db_delete_user i db) = filter (fun u => negb (id u =? i)) (users db).
Proof.
  rewrite !users_rows. unfold db_delete_user. simpl usr.
  rewrite (map_ext (user_of (set_usr db _)) (user_of db)) by reflexivity.
  induction (usr db) as [|r rows IH]; simpl; [reflexivity|].
  destruct (usr_id r =? i); simpl; [exact IH | now rewrite IH].
Qed.

Section Maintenance.

Context {pwd_context : CryptContext} {auth_service : AuthService}.

(** X4: for an administrator, [link_user_to_cashier_account] and
    [link_user_to_transport_account] return [False] and change nothing when
    no user has the id; otherwise they return [True] and the user reads back
    with the given account id in that one field and everything else,
    privileges included, as before. No account is looked up or created and
    every other user reads as before. *)
Theorem link_user_to_account_relinks
    (current_user : option User) (user_id account_id : Z) (db : DB) :
  authorized [admin] current_user ->
  (lookup_user db user_id = None ->
   with_db_transaction
     (link_user_to_cashier_account current_user user_id account_id) db
   = (inr false, db) /\
   with_db_transaction
     (link_user_to_transport_account current_user user_id account_id) db
   = (inr false, db)) /\
  (forall u,
     lookup_user db user_id = Some u ->
     exists dbc dbt,
       with_db_transaction
         (link_user_to_cashier_account current_user user_id account_id) db
       = (inr true, dbc) /\
       lookup_user dbc user_id = Some (relink_cashier account_id u) /\
       with_db_transaction
         (link_user_to_transport_account current_user user_id account_id) db
       = (inr true, dbt) /\
       lookup_user dbt user_id = Some (relink_transport account_id u) /\
       account dbc = account db /\ account dbt = account db /\
       (forall other, other <> user_id ->
                      lookup_user dbc other = lookup_user db other /\
                      lookup_user dbt other = lookup_user db other)).
Proof.
  intros A. destruct (authorized_admin _ A) as [a [-> Ha]].
  unfold with_db_transaction, link_user_to_cashier_account,
    link_user_to_transport_account.
  rewrite !(guard_admin _ _ Ha).
  unfold bind, update_usr_cashier_account_id, update_usr_transport_account_id,
    ret, returning_id.
  split.
  - rewrite lookup_user_rows.
    destruct (find _ (usr db)) as [r|] eqn:F; [discriminate|]. intros _.
    rewrite !(map_update_where_absent _ _ _ F), set_usr_same. now split.
  - intros u L. pose proof L as L'. rewrite lookup_user_rows in L'.
    destruct (find _ (usr db)) as [r|] eqn:F; [|discriminate]. simpl.
    eexists _, _. split; [reflexivity|].
    split; [|split; [reflexivity|split]].
    + change (set_usr db _) with (db_link_cashier_account user_id account_id db).
      now rewrite lookup_user_link_cashier, Z.eqb_refl, L.
    + change (set_usr db _)
        with (db_link_transport_account user_id account_id db).
      now rewrite lookup_user_link_transport, Z.eqb_refl, L.
    + split; [reflexivity|]. split; [reflexivity|].
      intros other O. apply Z.eqb_neq in O.
      change (set_usr db (map (update_where user_id
                                 (set_cashier_account_id account_id)) (usr db)))
        with (db_link_cashier_account user_id account_id db).
      change (set_usr db (map (update_where user_id
                                 (set_transport_account_id account_id)) (usr db)))
        with (db_link_transport_account user_id account_id db).
      now rewrite lookup_user_link_cashier, lookup_user_link_transport, O.
Qed.

(** X5: for an administrator, [list_users] returns the users of the
    database and [get_user] returns a user of that list with the asked id, or
    raises [NotFoundException] when the list has no user with that id;
    neither changes the database. *)
Theorem list_users_and_get_user_agree
    (current_user : option User) (user_id : Z) (db : DB) :
  authorized [admin] current_user ->
  with_db_transaction (list_users current_user) db = (inr (users db), db) /\
  ((exists u,
      with_db_transaction (get_user current_user user_id) db = (inr u, db) /\
      In u (users db) /\ id u = user_id) \/
   (with_db_transaction (get_user current_user user_id) db
    = (inl (NotFoundException "user" (str user_id)), db) /\
    forall u, In u (users db) -> id u <> user_id)).
Proof.
  intros A. destruct (authorized_admin _ A) as [a [-> Ha]].
  unfold with_db_transaction, list_users, get_user.
  rewrite !(guard_admin _ _ Ha), _get_user_lookup.
  split; [reflexivity|].
  destruct (lookup_user db user_id) as [u|] eqn:L.
  - left. exists u. split; [reflexivity|].
    split; [now apply lookup_user_In with user_id | now apply lookup_user_id with db].
  - right. split; [reflexivity|].
    intros u U. rewrite users_rows in U. apply in_map_iff in U.
    destruct U as [r [<- R]]. rewrite lookup_user_rows in L.
    destruct (find _ (usr db)) eqn:F; [discriminate|].
    rewrite find_none_iff in F. specialize (F r R). simpl.
    now apply Z.eqb_neq.
Qed.

(** X6: for an administrator, [delete_user] removes from the listed users
    exactly those with the id, keeps the others in their order, and leaves
    every other id, the sessions and the accounts as they were. *)
Theorem delete_user_frame (current_user : option User) (user_id : Z) (db : DB) :
  authorized [admin] current_user ->
  exists deleted db',
    with_db_transaction (delete_user current_user user_id) db
    = (inr deleted, db') /\
    users db' = filter (fun u => negb (id u =? user_id)) (users db) /\
    (forall other, other <> user_id ->
                   lookup_user db' other = lookup_user db other) /\
    usr_session db' = usr_session db /\ account db' = account db.
Proof.
  intros A. destruct (authorized_admin _ A) as [a [-> Ha]].
  rewrite delete_user_closed, Ha. eexists _, _. split; [reflexivity|].
  split; [apply users_delete|]. split; [|now split].
  intros other O. rewrite !lookup_user_rows. unfold db_delete_user at 2.
  simpl usr. rewrite (find_filter_other _ _ _ O).
  now destruct (find _ (usr db)).
Qed.

(** X7: for an administrator, [promote_to_finanzorga] raises
    [NotFoundException] for an absent id and returns a user who already
    holds [finanzorga] as stored, changing nothing; for every stored user a
    second call returns the user of the first and changes nothing, so no
    second transport account is created. *)
Theorem promote_to_finanzorga_idempotent
    (current_user : option User) (user_id : Z) (db : DB) :
  authorized [admin] current_user ->
  (lookup_user db user_id = None ->
   with_db_transaction (promote_to_finanzorga current_user user_id) db
   = (inl (NotFoundException "user" (str user_id)), db)) /\
  (forall u,
     lookup_user db user_id = Some u -> In finanzorga (privileges u) ->
     with_db_transaction (promote_to_finanzorga current_user user_id) db
     = (inr u, db)) /\
  (forall u,
     lookup_user db user_id = Some u ->
     exists u1 db1,
       with_db_transaction (promote_to_finanzorga current_user user_id) db
       = (inr u1, db1) /\
       with_db_transaction (promote_to_finanzorga current_user user_id) db1
       = (inr u1, db1) /\
       lookup_user db1 user_id = Some u1 /\
       In finanzorga (privileges u1) /\
       (List.length (account db1) <= S (List.length (account db)))%nat).
Proof.
  intros A. destruct (authorized_admin _ A) as [a [-> Ha]].
  unfold with_db_transaction.
  split; [|split].
  - intros L. rewrite (promote_to_finanzorga_closed _ _ _ Ha).
    unfold promote_to_finanzorga_body. now rewrite L.
  - intros u L H. rewrite (promote_to_finanzorga_closed _ _ _ Ha).
    unfold promote_to_finanzorga_body. rewrite L.
    apply holds_iff in H. now rewrite H.
  - intros u L.
    destruct (promote_to_finanzorga_body_twice _ _ _ L)
      as [u1 [db1 [E1 [E2 [L1 [Hin Hout]]]]]].
    exists u1, db1. rewrite !(promote_to_finanzorga_closed _ _ _ Ha), E1, E2.
    split; [reflexivity|]. split; [reflexivity|]. split; [exact L1|].
    destruct (in_dec Privilege_eq_dec finanzorga (privileges u)) as [I|I].
    + destruct (Hin I) as [-> ->]. split; [exact I | lia].
    + destruct (Hout I) as [-> ->].
      split; [simpl; apply in_or_app; right; now left|].
      simpl. rewrite length_app. simpl. lia.
Qed.

End Maintenance.

(** ** What no operation does *)

Lemma effect_frame (op : Op) (db db' : DB) :
  effect op db db' ->
  user_tag_table db' = user_tag_table db /\
  (exists created,
     account db' = (account db ++ created)%list /\
     (~ promoting_op op -> created = [])) /\
  (~ session_op op -> usr_session db' = usr_session db) /\
  (session_op op -> usr db' = usr db /\ usr_privs db' = usr_privs db).
Proof.
  intros E.
  induction E as [ | | | | i u db Lu Nu | i u db Lu Nu
                   | nu i db db1 db2 E1 IH1 E2 IH2
                   | nu i j db db1 db2 db3 E1 IH1 E2 IH2 E3 IH3
                   | | | | | | ];
    try (split; [reflexivity|]; split;
         [exists []; split; [now rewrite app_nil_r | reflexivity]|];
         split; [try reflexivity; intros N; now elim N
                | try (intros []); intros _; split; reflexivity]).
  - split; [reflexivity|]. split; [|split; [reflexivity | intros []]].
    eexists. split; [reflexivity|]. intros N. now elim N.
  - split; [reflexivity|]. split; [|split; [reflexivity | intros []]].
    eexists. split; [reflexivity|]. intros N. now elim N.
  - destruct IH1 as [T1 [[c1 [A1 _]] [S1 _]]].
    destruct IH2 as [T2 [[c2 [A2 _]] [S2 _]]].
    split; [congruence|]. split; [|split; [|intros []]].
    + exists (c1 ++ c2)%list. split; [|intros N; now elim N].
      now rewrite A2, A1, app_assoc.
    + intros _. rewrite S2, S1; auto.
  - destruct IH1 as [T1 [[c1 [A1 _]] [S1 _]]].
    destruct IH2 as [T2 [[c2 [A2 _]] [S2 _]]].
    destruct IH3 as [T3 [[c3 [A3 _]] [S3 _]]].
    split; [congruence|]. split; [|split; [|intros []]].
    + exists (c1 ++ c2 ++ c3)%list. split; [|intros N; now elim N].
      now rewrite A3, A2, A1, <- !app_assoc.
    + intros _. rewrite S3, S2, S1; auto.
  - split; [reflexivity|]. split; [|split; [|now split]].
    + exists []. split; [simpl; now rewrite app_nil_r | reflexivity].
    + intros N. now elim N.
  - split; [reflexivity|]. split; [|split; [|now split]].
    + exists []. split; [simpl; now rewrite app_nil_r | reflexivity].
    + intros N. now elim N.
Qed.

Lemma passwords_kept_refl (db : DB) : passwords_kept db db.
Proof. split; [lia|]. intros r R _. exists r. now repeat split. Qed.

Lemma passwords_kept_trans (db1 db2 db3 : DB) :
  passwords_kept db1 db2 -> passwords_kept db2 db3 -> passwords_kept db1 db3.
Proof.
  intros [S1 K1] [S2 K2]. split; [lia|].
  intros r3 R3 B. destruct (K2 r3 R3) as [r2 [R2 [I2 P2]]]; [lia|].
  destruct (K1 r2 R2) as [r1 [R1 [I1 P1]]]; [lia|].
  exists r1. repeat split; [exact R1 | congruence | congruence].
Qed.

Lemma passwords_kept_set_column (i : Z) (f : usr_row -> usr_row) (db db' : DB) :
  (forall r, usr_id (f r) = usr_id r /\ usr_password (f r) = usr_password r) ->
  usr db' = map (update_where i f) (usr db) ->
  usr_id_seq db' = usr_id_seq db ->
  passwords_kept db db'.
Proof.
  intros Hf U S. split; [lia|]. intros r' R' _. rewrite U in R'.
  apply In_update_where in R'. destruct R' as [r [R [[_ ->]|[_ ->]]]];
    exists r; repeat split; try exact R; symmetry; apply Hf.
Qed.

Lemma passwords_kept_effect (op : Op) (db db' : DB) :
  effect op db db' -> passwords_kept db db'.
Proof.
  intros E.
  induction E as [ | | | | i u db Lu Nu | i u db Lu Nu
                   | nu i db db1 db2 E1 IH1 E2 IH2
                   | nu i j db db1 db2 db3 E1 IH1 E2 IH2 E3 IH3
                   | | | | | | ];
    try apply passwords_kept_refl;
    try (eapply passwords_kept_set_column; [|reflexivity|reflexivity];
         intros r; now split);
    try (now eapply passwords_kept_trans; eauto using passwords_kept_trans);
    try (split; [simpl; lia|]; intros r' R' B; simpl in R';
         apply in_app_or in R'; destruct R' as [R'|[<-|[]]];
         [exists r'; now repeat split | simpl in B; lia]).
  - split; [simpl; lia|]. intros r' R' _. simpl in R'.
    apply filter_In in R'. exists r'. now repeat split.
  - split; [simpl; lia|]. intros r' R' _. exists r'. now repeat split.
  - split; [simpl; lia|]. intros r' R' _. exists r'. now repeat split.
Qed.

Lemma distinct_ids_of_kept_rows (keep : usr_row -> bool) (rows : list usr_row) :
  NoDup (map usr_id rows) -> NoDup (map usr_id (filter keep rows)).
Proof.
  intros N. induction rows as [|r rows IH]; simpl; [constructor|].
  simpl in N. apply NoDup_cons_iff in N. destruct N as [Hr Hrows].
  destruct (keep r); simpl; [|now apply IH].
  apply NoDup_cons; [|now apply IH].
  intros I. apply Hr. apply in_map_iff in I. destruct I as [x [E Hx]].
  apply filter_In in Hx. rewrite <- E. apply in_map. tauto.
Qed.

Lemma map_usr_id_update_where (i : Z) (f : usr_row -> usr_row)
    (rows : list usr_row) :
  (forall r, usr_id (f r) = usr_id r) ->
  map usr_id (map (update_where i f) rows) = map usr_id rows.
Proof.
  intros Hf. rewrite map_map. apply map_ext. intros r. unfold update_where.
  destruct (usr_id r =? i); [apply Hf | reflexivity].
Qed.

Lemma NoDup_snoc {A} (l : list A) (a : A) :
  NoDup l -> ~ In a l -> NoDup (l ++ [a]).
Proof.
  induction l as [|x l IH]; simpl; intros N I.
  - constructor; [intros [] | constructor].
  - inversion N as [|y ys Hy Hys]; subst. constructor.
    + intros H. apply in_app_or in H. destruct H as [H|[H|[]]]; [tauto|].
      apply I. now left.
    + apply IH; [exact Hys | tauto].
Qed.

Lemma unique_ids_create_user (new_user : UserWithoutId) (h : option string)
    (db : DB) :
  wf_db db -> unique_ids db -> unique_ids (db_create_user new_user h db).
Proof.
  intros W U. unfold unique_ids, db_create_user. simpl usr.
  rewrite map_app. simpl. apply NoDup_snoc; [exact U|].
  intros I. apply in_map_iff in I.
  destruct I as [r [E R]]. apply (proj1 W) in R. lia.
Qed.

Lemma unique_ids_effect (op : Op) (db db' : DB) :
  effect op db db' -> wf_db db -> unique_ids db -> unique_ids db'.
Proof.
  intros E.
  induction E as [ | | | | i u db Lu Nu | i u db Lu Nu
                   | nu i db db1 db2 E1 IH1 E2 IH2
                   | nu i j db db1 db2 db3 E1 IH1 E2 IH2 E3 IH3
                   | | | | | | ];
    intros W U; auto using unique_ids_create_user;
    try (unfold unique_ids; simpl usr;
         now rewrite map_usr_id_update_where by reflexivity).
  - apply IH2; [|now apply IH1]. now apply wf_db_effect with (1 := E1).
  - assert (W1 : wf_db db1) by now apply wf_db_effect with (1 := E1).
    assert (W2 : wf_db db2) by now apply wf_db_effect with (1 := E2).
    apply IH3; [exact W2|]. apply IH2; [exact W1|]. now apply IH1.
  - unfold unique_ids. simpl usr. now apply distinct_ids_of_kept_rows.
Qed.

Section Frames.

Context {pwd_context : CryptContext} {auth_service : AuthService}.

Lemma guard_denied {A} (body : User -> Conn A) (cu : option User) (db : DB) :
  (forall u, cu = Some u -> holds_one_of [admin] u = false) ->
  requires_user_privileges [admin] body cu db = inl PermissionDenied.
Proof.
  intros H. unfold requires_user_privileges. destruct cu as [u|]; [|reflexivity].
  now rewrite (H u eq_refl).
Qed.

Lemma terminal_guard_denied {A} (body : User -> Conn A) (ct : option Z)
    (cu : option User) (db : DB) :
  (forall u, cu = Some u -> holds_one_of [admin] u = false) ->
  requires_terminal [admin] body ct cu db = inl PermissionDenied.
Proof.
  intros H. unfold requires_terminal. destruct ct; [|reflexivity].
  now apply guard_denied.
Qed.

(** X8: no public call changes the table of tags; accounts are only added,
    after the ones that were there, and only by the promotions and the two
    terminal operations built on them; the sessions are touched by
    [login_user] and [logout_user] alone, which in turn leave the users and
    their privileges as they were. *)
Theorem exec_frame (caller : Caller) (op : Op) (db : DB) :
  user_tag_table (exec caller op db) = user_tag_table db /\
  (exists created,
     account (exec caller op db) = (account db ++ created)%list /\
     (~ promoting_op op -> created = [])) /\
  (~ session_op op -> usr_session (exec caller op db) = usr_session db) /\
  (session_op op ->
   usr (exec caller op db) = usr db /\
   usr_privs (exec caller op db) = usr_privs db).
Proof. apply effect_frame. apply exec_effect. Qed.

(** X9: along any sequence of public calls, a row of [usr] whose id was
    handed out before the sequence has the [password] that a row with that
    id had before it: no operation rewrites a stored password. *)
Theorem stored_passwords_never_change (db0 db : DB) (r' : usr_row) :
  reachable_by any_op db0 db ->
  In r' (usr db) ->
  usr_id r' < usr_id_seq db0 ->
  exists r, In r (usr db0) /\ usr_id r = usr_id r' /\
            usr_password r = usr_password r'.
Proof.
  intros R. revert r'.
  assert (K : passwords_kept db0 db).
  { induction R as [|caller op db R IH A]; [apply passwords_kept_refl|].
    apply passwords_kept_trans with db; [exact IH|].
    apply passwords_kept_effect with op. apply exec_effect. }
  exact (proj2 K).
Qed.

(** X10: a caller who is not authenticated, or whose principal does not
    hold [admin], gets [PermissionDenied] from every operation decorated
    with that requirement, and the database stays as it was. *)
Theorem admin_operations_refuse_others
    (caller : Caller) (op : Op) (db : DB)
    (new_user : UserWithoutId) (password : option string) (tagged : NewUser)
    (user_id account_id : Z) :
  (forall u, current_user caller = Some u -> holds_one_of [admin] u = false) ->
  (admin_guarded op -> exec caller op db = db) /\
  with_db_transaction (create_user (current_user caller) new_user password) db
  = (inl PermissionDenied, db) /\
  with_db_transaction (update_user (current_user caller) user_id new_user) db
  = (inl PermissionDenied, db) /\
  with_db_transaction (delete_user (current_user caller) user_id) db
  = (inl PermissionDenied, db) /\
  with_db_transaction (get_user (current_user caller) user_id) db
  = (inl PermissionDenied, db) /\
  with_db_transaction (list_users (current_user caller)) db
  = (inl PermissionDenied, db) /\
  with_db_transaction (create_user_with_tag (current_user caller) tagged) db
  = (inl PermissionDenied, db) /\
  with_db_transaction (promote_to_cashier (current_user caller) user_id) db
  = (inl PermissionDenied, db) /\
  with_db_transaction (promote_to_finanzorga (current_user caller) user_id) db
  = (inl PermissionDenied, db) /\
  with_db_transaction
    (create_cashier (current_terminal caller) (current_user caller) tagged) db
  = (inl PermissionDenied, db) /\
  with_db_transaction
    (create_finanzorga (current_terminal caller) (current_user caller) tagged) db
  = (inl PermissionDenied, db) /\
  with_db_transaction
    (link_user_to_cashier_account (current_user caller) user_id account_id) db
  = (inl PermissionDenied, db) /\
  with_db_transaction
    (link_user_to_transport_account (current_user caller) user_id account_id) db
  = (inl PermissionDenied, db).
Proof.
  intros H. split.
  - destruct op; simpl; intros G; try contradiction;
      unfold exec, with_db_transaction, create_user, create_cashier,
        create_finanzorga, create_user_with_tag, promote_to_cashier,
        promote_to_finanzorga, list_users, get_user, update_user, delete_user,
        link_user_to_cashier_account, link_user_to_transport_account;
      rewrite ?(guard_denied _ _ _ H), ?(terminal_guard_denied _ _ _ _ H);
      reflexivity.
  - unfold with_db_transaction, create_user, create_cashier,
      create_finanzorga, create_user_with_tag, promote_to_cashier,
      promote_to_finanzorga, list_users, get_user, update_user, delete_user,
      link_user_to_cashier_account, link_user_to_transport_account.
    rewrite !(guard_denied _ _ _ H), !(terminal_guard_denied _ _ _ _ H).
    repeat split.
Qed.

(** X11: in every state reached by public calls from a database whose user
    ids are pairwise distinct and were drawn from the counter, the user ids
    are again pairwise distinct and below the counter: a new user never gets
    the id of another row, also after deletions. *)
Theorem user_ids_stay_unique (db0 db : DB) :
  wf_db db0 -> unique_ids db0 ->
  reachable_by any_op db0 db ->
  wf_db db /\ unique_ids db.
Proof.
  intros W U R. induction R as [|caller op db R IH A]; [now split|].
  destruct IH as [W' U']. split.
  - apply wf_db_effect with (1 := exec_effect caller op db). exact W'.
  - apply unique_ids_effect with (1 := exec_effect caller op db); assumption.
Qed.

End Frames.

(** ** Scanning a tag again *)

Lemma find_unique (rows : list usr_row) (r : usr_row) :
  NoDup (map usr_id rows) -> In r rows ->
  find (fun x => usr_id x =? usr_id r) rows = Some r.
Proof.
  induction rows as [|x rows IH]; simpl; intros N I; [contradiction|].
  inversion N as [|y ys Hy Hys]; subst.
  destruct I as [->|I]; [now rewrite Z.eqb_refl|].
  destruct (usr_id x =? usr_id r) eqn:E; [|now apply IH].
  apply Z.eqb_eq in E. elim Hy. rewrite E. now apply in_map.
Qed.

Lemma lookup_user_by_tag_by_id (db : DB) (t : Z) (u : User) :
  unique_ids db -> lookup_user_by_tag db t = Some u ->
  lookup_user db (id u) = Some u /\ user_tag_id u = Some t.
Proof.
  intros U. rewrite lookup_user_by_tag_rows, lookup_user_rows.
  destruct (find (bound_to t) (usr db)) as [r|] eqn:F; [|discriminate].
  intros [= <-]. apply find_some in F. destruct F as [F B]. simpl id.
  rewrite (find_unique _ _ U F). split; [reflexivity|]. simpl.
  unfold bound_to in B. destruct (usr_user_tag_id r) as [t'|]; [|discriminate].
  apply Z.eqb_eq in B. now subst.
Qed.

Lemma find_bound_update (t : Z) (user : UserWithoutId) (rows : list usr_row)
    (r : usr_row) :
  NoDup (map usr_id rows) ->
  find (bound_to t) rows = Some r ->
  user_tag_id user = Some t ->
  find (bound_to t) (map (update_where (usr_id r) (replace_usr user)) rows)
  = Some (replace_usr user r).
Proof.
  intros N F T.
  assert (B : forall x, bound_to t (replace_usr user x) = true).
  { intros x. unfold bound_to, replace_usr. simpl. rewrite T. apply Z.eqb_refl. }
  induction rows as [|x rows IH]; simpl in *; [discriminate|].
  inversion N as [|y ys Hy Hys]; subst.
  destruct (bound_to t x) eqn:Bx.
  - injection F as ->. unfold update_where. now rewrite Z.eqb_refl, B.
  - assert (I : In r rows) by now apply find_some in F.
    unfold update_where at 1.
    destruct (usr_id x =? usr_id r) eqn:E.
    + apply Z.eqb_eq in E. elim Hy. rewrite E. now apply in_map.
    + rewrite Bx. now apply IH.
Qed.

Lemma lookup_user_by_tag_update (db : DB) (t : Z) (u : User)
    (user : UserWithoutId) :
  unique_ids db -> lookup_user_by_tag db t = Some u ->
  user_tag_id user = Some t ->
  lookup_user_by_tag (db_update_user (id u) user db) t
  = Some (mkUser (id u) user).
Proof.
  intros U L T. rewrite lookup_user_by_tag_rows in *.
  destruct (find (bound_to t) (usr db)) as [r|] eqn:F; [|discriminate].
  injection L as <-. unfold db_update_user at 2. simpl usr. simpl id.
  rewrite (find_bound_update _ _ _ _ U F T). simpl.
  unfold user_of, parse_obj. simpl.
  now rewrite privileges_of_update, Z.eqb_refl, user_eta.
Qed.

Lemma unique_ids_update_user (i : Z) (user : UserWithoutId) (db : DB) :
  unique_ids db -> unique_ids (db_update_user i user db).
Proof.
  unfold unique_ids, db_update_user. simpl usr.
  now rewrite map_usr_id_update_where by reflexivity.
Qed.

Section Rescan.

Context {pwd_context : CryptContext} {auth_service : AuthService}.

Lemma bind_inr {A B} (c : Conn A) (k : A -> Conn B) (db db' : DB) (a : A) :
  c db = inr (a, db') -> bind c k db = k a db'.
Proof. unfold bind. now intros ->. Qed.

Lemma create_user_with_tag_body_by_tag (new_user : NewUser) (db : DB) (t : Z) :
  wf_db db -> unique_ids db ->
  resolve_tag db (user_tag new_user) = Some t ->
  exists u0 db0,
    create_user_with_tag_body new_user db = inr (u0, db0) /\
    lookup_user_by_tag db0 t = Some u0 /\ unique_ids db0 /\
    user_tag_table db0 = user_tag_table db.
Proof.
  intros W U R. unfold create_user_with_tag_body. rewrite R.
  destruct (lookup_user_by_tag db t) as [e|] eqn:E.
  - exists e, db. now repeat split.
  - rewrite (_create_user_wf _ _ _ W). eexists _, _. split; [reflexivity|].
    split; [now apply lookup_user_by_tag_create|].
    split; [now apply unique_ids_create_user | reflexivity].
Qed.

Lemma create_user_with_tag_body_bound (new_user : NewUser) (db : DB) (t : Z)
    (u : User) :
  resolve_tag db (user_tag new_user) = Some t ->
  lookup_user_by_tag db t = Some u ->
  create_user_with_tag_body new_user db = inr (u, db).
Proof. intros R L. unfold create_user_with_tag_body. now rewrite R, L. Qed.

Lemma promote_to_cashier_body_by_tag (db : DB) (t : Z) (u : User) :
  unique_ids db -> lookup_user_by_tag db t = Some u ->
  exists u1 db1,
    promote_to_cashier_body (id u) db = inr (u1, db1) /\
    promote_to_cashier_body (id u) db1 = inr (u1, db1) /\
    lookup_user_by_tag db1 t = Some u1 /\ unique_ids db1 /\
    user_tag_table db1 = user_tag_table db /\
    id u1 = id u /\ In cashier (privileges u1) /\
    incl (privileges u) (privileges u1).
Proof.
  intros U L. destruct (lookup_user_by_tag_by_id _ _ _ U L) as [Li T].
  destruct (promote_to_cashier_body_twice _ _ _ Li)
    as [u1 [db1 [E1 [E2 [L1 [Hin Hout]]]]]].
  exists u1, db1. split; [exact E1|]. split; [exact E2|].
  destruct (in_dec Privilege_eq_dec cashier (privileges u)) as [I|I].
  - destruct (Hin I) as [-> ->]. repeat split; auto using incl_refl.
  - destruct (Hout I) as [-> ->].
    split; [|split; [now apply unique_ids_update_user|]].
    + apply (lookup_user_by_tag_update
               (db_create_account internal ("Cashier account for " ++ name u) db)
               t u); [exact U | exact L | exact T].
    + split; [reflexivity|]. split; [reflexivity|].
      split; [simpl; apply in_or_app; right; now left|].
      simpl. now apply incl_appl.
Qed.

Lemma promote_to_finanzorga_body_by_tag (db : DB) (t : Z) (u : User) :
  unique_ids db -> lookup_user_by_tag db t = Some u ->
  exists u1 db1,
    promote_to_finanzorga_body (id u) db = inr (u1, db1) /\
    promote_to_finanzorga_body (id u) db1 = inr (u1, db1) /\
    lookup_user_by_tag db1 t = Some u1 /\ unique_ids db1 /\
    user_tag_table db1 = user_tag_table db /\
    id u1 = id u /\ In finanzorga (privileges u1) /\
    incl (privileges u) (privileges u1).
Proof.
  intros U L. destruct (lookup_user_by_tag_by_id _ _ _ U L) as [Li T].
  destruct (promote_to_finanzorga_body_twice _ _ _ Li)
    as [u1 [db1 [E1 [E2 [L1 [Hin Hout]]]]]].
  exists u1, db1. split; [exact E1|]. split; [exact E2|].
  destruct (in_dec Privilege_eq_dec finanzorga (privileges u)) as [I|I].
  - destruct (Hin I) as [-> ->]. repeat split; auto using incl_refl.
  - destruct (Hout I) as [-> ->].
    split; [|split; [now apply unique_ids_update_user|]].
    + apply (lookup_user_by_tag_update
               (db_create_account internal
                  ("Transport account for finanzorga " ++ name u) db)
               t u); [exact U | exact L | exact T].
    + split; [reflexivity|]. split; [reflexivity|].
      split; [simpl; apply in_or_app; right; now left|].
      simpl. now apply incl_appl.
Qed.

Lemma promote_to_cashier_body_holder (db : DB) (u : User) :
  lookup_user db (id u) = Some u -> In cashier (privileges u) ->
  promote_to_cashier_body (id u) db = inr (u, db).
Proof.
  intros L I. unfold promote_to_cashier_body. rewrite L.
  apply holds_iff in I. now rewrite I.
Qed.

(** X12: scanning a known tag twice at a terminal is harmless. For an
    administrator at a terminal, on a database whose user ids are distinct
    and were drawn from the counter, [create_cashier] returns a user bound to
    the tag who holds [cashier], and a second [create_cashier] with the same
    tag uid and any name returns that user and changes nothing, so no second
    user and no second account appear. [create_finanzorga] behaves the same
    way, its user holding [cashier] and [finanzorga]. *)
Theorem terminal_creation_rescan
    (current_terminal : option Z) (current_user : option User)
    (new_user retry : NewUser) (db : DB) (t : Z) :
  authorized [admin] current_user ->
  current_terminal <> None ->
  wf_db db -> unique_ids db ->
  resolve_tag db (user_tag new_user) = Some t ->
  user_tag retry = user_tag new_user ->
  (exists u db1,
     with_db_transaction
       (create_cashier current_terminal current_user new_user) db
     = (inr u, db1) /\
     user_tag_id u = Some t /\ In cashier (privileges u) /\
     with_db_transaction
       (create_cashier current_terminal current_user retry) db1
     = (inr u, db1)) /\
  (exists u db1,
     with_db_transaction
       (create_finanzorga current_terminal current_user new_user) db
     = (inr u, db1) /\
     user_tag_id u = Some t /\
     In cashier (privileges u) /\ In finanzorga (privileges u) /\
     with_db_transaction
       (create_finanzorga current_terminal current_user retry) db1
     = (inr u, db1)).
Proof.
  intros A T W U R Hr. destruct (authorized_admin _ A) as [a [-> Ha]].
  destruct current_terminal as [term|]; [clear T | congruence].
  destruct (create_user_with_tag_body_by_tag _ _ _ W U R)
    as [u0 [db0 [E0 [L0 [U0 T0]]]]].
  destruct (promote_to_cashier_body_by_tag _ _ _ U0 L0)
    as [u1 [db1 [E1 [E1' [L1 [U1 [T1 [I1 [C1 _]]]]]]]]].
  assert (R1 : resolve_tag db1 (user_tag retry) = Some t).
  { unfold resolve_tag in *. now rewrite T1, T0, Hr. }
  rewrite <- (create_user_with_tag_closed _ _ _ Ha) in E0.
  rewrite <- (promote_to_cashier_closed _ _ _ Ha) in E1.
  rewrite <- (promote_to_cashier_closed _ _ _ Ha) in E1'.
  pose proof (create_user_with_tag_body_bound _ _ _ _ R1 L1) as B1.
  rewrite <- (create_user_with_tag_closed _ _ _ Ha) in B1.
  unfold with_db_transaction, create_cashier, create_finanzorga,
    requires_terminal.
  rewrite !(guard_admin _ _ Ha). split.
  - exists u1, db1.
    rewrite (bind_inr _ _ _ _ _ E0). cbv beta.
    rewrite (bind_inr _ _ _ _ _ E1). cbv beta.
    split; [reflexivity|].
    split; [exact (proj2 (lookup_user_by_tag_by_id _ _ _ U1 L1))|].
    split; [exact C1|].
    rewrite (bind_inr _ _ _ _ _ B1). cbv beta. rewrite I1.
    rewrite (bind_inr _ _ _ _ _ E1'). reflexivity.
  - destruct (promote_to_finanzorga_body_by_tag _ _ _ U1 L1)
      as [u2 [db2 [E2 [E2' [L2 [U2 [T2 [I2 [F2 Inc]]]]]]]]].
    assert (R2 : resolve_tag db2 (user_tag retry) = Some t).
    { unfold resolve_tag in *. now rewrite T2. }
    destruct (lookup_user_by_tag_by_id _ _ _ U2 L2) as [Li2 Tag2].
    pose proof (create_user_with_tag_body_bound _ _ _ _ R2 L2) as B2.
    pose proof (promote_to_cashier_body_holder _ _ Li2 (Inc _ C1)) as H2.
    rewrite <- (create_user_with_tag_closed _ _ _ Ha) in B2.
    rewrite <- (promote_to_cashier_closed _ _ _ Ha) in H2.
    rewrite <- (promote_to_finanzorga_closed _ _ _ Ha) in E2.
    rewrite <- (promote_to_finanzorga_closed _ _ _ Ha) in E2'.
    exists u2, db2.
    rewrite (bind_inr _ _ _ _ _ E0). cbv beta.
    rewrite (bind_inr _ _ _ _ _ E1). cbv beta.
    rewrite (bind_inr _ _ _ _ _ E2). cbv beta.
    split; [reflexivity|]. split; [exact Tag2|].
    split; [now apply Inc|]. split; [exact F2|].
    rewrite (bind_inr _ _ _ _ _ B2). cbv beta.
    rewrite (bind_inr _ _ _ _ _ H2). cbv beta. rewrite I2.
    rewrite (bind_inr _ _ _ _ _ E2'). reflexivity.
Qed.

End Rescan.

(** ** One user per scanned tag *)

Lemma filter_nil_of_find {A} (p : A -> bool) (l : list A) :
  find p l = None -> filter p l = [].
Proof.
  induction l as [|a l IH]; simpl; [reflexivity|].
  destruct (p a); [discriminate | exact IH].
Qed.

Lemma filter_length_of_find {A} (p : A -> bool) (l : list A) (a : A) :
  find p l = Some a -> (1 <= List.length (filter p l))%nat.
Proof.
  induction l as [|x l IH]; simpl; [discriminate|].
  destruct (p x); simpl; [lia | exact IH].
Qed.

Section Scanning.

Context {pwd_context : CryptContext} {auth_service : AuthService}.

(** X13: for an administrator, [promote_to_cashier] on a user without
    [cashier] creates one account, named after the user, stores it as the
    user's [cashier_account_id] and appends [cashier]; name, description, tag
    id, [transport_account_id] and the other privileges stay, and every
    other user reads as before. *)
Theorem promote_to_cashier_frame
    (current_user : option User) (user_id : Z) (db : DB) (u : User) :
  authorized [admin] current_user ->
  lookup_user db user_id = Some u ->
  ~ In cashier (privileges u) ->
  exists u' db',
    with_db_transaction (promote_to_cashier current_user user_id) db
    = (inr u', db') /\
    lookup_user db' user_id = Some u' /\
    name u' = name u /\ description u' = description u /\
    user_tag_id u' = user_tag_id u /\
    transport_account_id u' = transport_account_id u /\
    cashier_account_id u' = Some (account_id_seq db) /\
    privileges u' = (privileges u ++ [cashier])%list /\
    (In finanzorga (privileges u') <-> In finanzorga (privileges u)) /\
    account db' =
      (account db ++
       [mk_account_row (account_id_seq db) internal
          ("Cashier account for " ++ name u)])%list /\
    (forall other, other <> user_id ->
                   lookup_user db' other = lookup_user db other).
Proof.
  intros A L N. destruct (authorized_admin _ A) as [a [-> Ha]].
  unfold with_db_transaction.
  destruct (promote_to_cashier_body_twice _ _ _ L)
    as [u1 [db1 [E1 [_ [L1 [_ Hout]]]]]].
  destruct (Hout N) as [-> ->].
  eexists _, _. rewrite (promote_to_cashier_closed _ _ _ Ha), E1.
  split; [reflexivity|]. split; [exact L1|].
  repeat (split; [reflexivity|]).
  split; [|split; [reflexivity|]].
  - simpl. rewrite in_app_iff. simpl. intuition congruence.
  - intros other O. rewrite lookup_user_update.
    apply Z.eqb_neq in O. now rewrite O.
Qed.

(** X14: for an administrator, [create_user_with_tag] with a known tag uid
    never binds a second user to a tag: afterwards the number of rows bound
    to the resolved tag id is one if there was none and unchanged otherwise,
    and the number of rows bound to any other tag id is unchanged. *)
Theorem create_user_with_tag_binds_once
    (current_user : option User) (new_user : NewUser) (db : DB) (t : Z) :
  authorized [admin] current_user ->
  resolve_tag db (user_tag new_user) = Some t ->
  exists u db',
    with_db_transaction (create_user_with_tag current_user new_user) db
    = (inr u, db') /\
    List.length (filter (bound_to t) (usr db'))
    = Nat.max 1 (List.length (filter (bound_to t) (usr db))) /\
    (forall t', t' <> t ->
                List.length (filter (bound_to t') (usr db'))
                = List.length (filter (bound_to t') (usr db))).
Proof.
  intros A R. destruct (authorized_admin _ A) as [a [-> Ha]].
  unfold with_db_transaction.
  rewrite (create_user_with_tag_closed _ _ _ Ha).
  unfold create_user_with_tag_body. rewrite R.
  destruct (lookup_user_by_tag db t) as [e|] eqn:E.
  - exists e, db. split; [reflexivity|]. split; [|reflexivity].
    rewrite lookup_user_by_tag_rows in E.
    destruct (find (bound_to t) (usr db)) as [r|] eqn:F; [|discriminate].
    pose proof (filter_length_of_find _ _ _ F). lia.
  - destruct (_create_user_returns (tag_user new_user t) None db) as [u Hu].
    rewrite Hu. eexists _, _. split; [reflexivity|].
    rewrite lookup_user_by_tag_rows in E.
    destruct (find (bound_to t) (usr db)) as [r|] eqn:F; [discriminate|].
    unfold db_create_user. simpl usr. split.
    + rewrite filter_app, (filter_nil_of_find _ _ F). simpl.
      unfold bound_to at 1. simpl. now rewrite Z.eqb_refl.
    + intros t' T. rewrite filter_app, length_app. simpl.
      unfold bound_to at 2. simpl.
      replace (t =? t') with false by (symmetry; apply Z.eqb_neq; lia).
      simpl. lia.
Qed.

(** X15: [create_cashier] and [create_finanzorga] raise [PermissionDenied]
    when the call does not come from a terminal, and for an administrator at
    a terminal they raise [NotFoundException("user_tag", uid)] for an unknown
    tag uid; in both cases no user and no account is created. *)
Theorem terminal_creation_errors
    (current_terminal : option Z) (current_user : option User)
    (new_user : NewUser) (db : DB) :
  (current_terminal = None ->
   with_db_transaction
     (create_cashier current_terminal current_user new_user) db
   = (inl PermissionDenied, db) /\
   with_db_transaction
     (create_finanzorga current_terminal current_user new_user) db
   = (inl PermissionDenied, db)) /\
  (authorized [admin] current_user ->
   current_terminal <> None ->
   resolve_tag db (user_tag new_user) = None ->
   with_db_transaction
     (create_cashier current_terminal current_user new_user) db
   = (inl (NotFoundException "user_tag" (str (user_tag new_user))), db) /\
   with_db_transaction
     (create_finanzorga current_terminal current_user new_user) db
   = (inl (NotFoundException "user_tag" (str (user_tag new_user))), db)).
Proof.
  unfold with_db_transaction, create_cashier, create_finanzorga,
    requires_terminal.
  split.
  - intros ->. now split.
  - intros A T R. destruct (authorized_admin _ A) as [a [-> Ha]].
    destruct current_terminal as [term|]; [|congruence].
    rewrite !(guard_admin _ _ Ha). unfold bind.
    rewrite !(create_user_with_tag_closed _ _ _ Ha).
    unfold create_user_with_tag_body. rewrite R. now split.
Qed.

End Scanning.

(** ** The grants of one user *)



Section UserGrants.

Context {pwd_context : CryptContext} {auth_service : AuthService}.


End UserGrants.

(** ** The service on the small installation *)

#[local] Existing Instance sample_pwd_context.
#[local] Existing Instance sample_auth_service.

Ltac known_rows :=
  repeat match goal with
         | H : _ \/ _ |- _ => destruct H as [H|H]
         | H : False |- _ => destruct H
         | H : _ = _ |- _ => (subst; simpl in *) || discriminate H
         end.

Lemma sample_db_wf : wf_db sample_db.
Proof.
  split; [intros r R | intros p R]; simpl in R; known_rows; simpl; lia.
Qed.

Lemma sample_db_cashier_linked : cashier_linked sample_db.
Proof.
  intros u U. vm_compute in U. unfold linked.
  destruct U as [<-|[<-|[]]]; simpl; intros C; known_rows.
Qed.

Lemma sample_admin_authorized : authorized [admin] (Some sample_admin).
Proof. exists sample_admin. split; [reflexivity | right; reflexivity]. Qed.

(** The invariant after an administrator created a cashier with its account,
    and the promotion of the stored user 2. *)
Lemma cashier_linked_preserved_witness :
  cashier_linked
    (exec sample_caller (OpCreateUser linked_cashier (Some "pw")) sample_db) /\
  exists u1 db1,
    with_db_transaction (promote_to_cashier (Some sample_admin) 2) sample_db
    = (inr u1, db1) /\
    lookup_user db1 2 = Some u1 /\
    In cashier (privileges u1) /\
    cashier_account_id u1 = Some 1 /\
    cashier_linked db1.
Proof.
  split.
  - apply (cashier_linked_preserved sample_db _ None 0 sample_admin
             sample_db_wf sample_db_cashier_linked).
    apply reachable_call; [apply reachable_start|].
    simpl. intros _. discriminate.
  - destruct (cashier_linked_preserved sample_db sample_db (Some sample_admin)
                2 (mkUser 2 bar_without_grants)
                sample_db_wf sample_db_cashier_linked
                (reachable_start _ _)) as [_ H].
    destruct (H sample_admin_authorized eq_refl (fun C => C))
      as [u1 [db1 [E [L [C [A [_ K]]]]]]].
    exists u1, db1. repeat split; assumption.
Defined.

(** C1 as stated fails: [create_user], called by the stored administrator
    with a user holding [cashier] and no cashier account, stores that user. *)
Lemma create_user_stores_unlinked_cashier :
  wf_db sample_db /\ cashier_linked sample_db /\
  lookup_user sample_db 1 = Some sample_admin /\
  reachable_by any_op sample_db sample_db_unlinked /\
  lookup_user sample_db_unlinked 3 = Some (mkUser 3 cashier_without_account) /\
  In cashier (privileges cashier_without_account) /\
  cashier_account_id cashier_without_account = None /\
  ~ cashier_linked sample_db_unlinked.
Proof.
  split; [exact sample_db_wf|]. split; [exact sample_db_cashier_linked|].
  split; [reflexivity|].
  split; [apply reachable_call; [apply reachable_start | exact I]|].
  split; [reflexivity|]. split; [now left|]. split; [reflexivity|].
  intros K. apply (K (mkUser 3 cashier_without_account)).
  - vm_compute. right. right. now left.
  - now left.
  - reflexivity.
Qed.



(** An unknown uid, a uid whose tag is bound to user 2, and a uid scanned
    twice under two names. *)
Lemma create_user_with_tag_first_writer_wins_witness :
  with_db_transaction
    (create_user_with_tag (Some sample_admin) (mkNewUser "baz" 999)) sample_db
  = (inl (NotFoundException "user_tag" "999"), sample_db) /\
  with_db_transaction
    (create_user_with_tag (Some sample_admin) (mkNewUser "other" 1234)) sample_db
  = (inr (mkUser 2 bar_without_grants), sample_db) /\
  with_db_transaction
    (create_user_with_tag (Some sample_admin) (mkNewUser "baz" 5678)) sample_db
  = (inr (mkUser 3 (mkUserWithoutId "baz" None [] (Some 11) None None)),
     db_create_user (tag_user (mkNewUser "baz" 5678) 11) None sample_db) /\
  with_db_transaction
    (create_user_with_tag (Some sample_admin) (mkNewUser "qux" 5678))
    (db_create_user (tag_user (mkNewUser "baz" 5678) 11) None sample_db)
  = (inr (mkUser 3 (mkUserWithoutId "baz" None [] (Some 11) None None)),
     db_create_user (tag_user (mkNewUser "baz" 5678) 11) None sample_db).
Proof.
  split; [|split; [|split]].
  - apply (create_user_with_tag_first_writer_wins (Some sample_admin)
             (mkNewUser "baz" 999) sample_db
             sample_admin_authorized sample_db_wf).
    reflexivity.
  - apply (create_user_with_tag_first_writer_wins (Some sample_admin)
             (mkNewUser "other" 1234) sample_db
             sample_admin_authorized sample_db_wf) with 10; reflexivity.
  - apply (create_user_with_tag_first_writer_wins (Some sample_admin)
             (mkNewUser "baz" 5678) sample_db
             sample_admin_authorized sample_db_wf); reflexivity.
  - apply (create_user_with_tag_first_writer_wins (Some sample_admin)
             (mkNewUser "baz" 5678) sample_db
             sample_admin_authorized sample_db_wf); reflexivity.
Defined.

(** An absent id, and user 2 promoted twice. *)
Lemma promote_to_cashier_idempotent_witness :
  with_db_transaction (promote_to_cashier (Some sample_admin) 9) sample_db
  = (inl (NotFoundException "user" "9"), sample_db) /\
  exists u1 db1,
    with_db_transaction (promote_to_cashier (Some sample_admin) 2) sample_db
    = (inr u1, db1) /\
    with_db_transaction (promote_to_cashier (Some sample_admin) 2) db1
    = (inr u1, db1) /\
    cashier_account_id u1 = Some 1 /\
    count_occ Privilege_eq_dec (privileges u1) cashier = 1%nat.
Proof.
  split.
  - apply (promote_to_cashier_idempotent (Some sample_admin) 9 sample_db
             sample_admin_authorized).
    reflexivity.
  - destruct (promote_to_cashier_idempotent (Some sample_admin) 2 sample_db
                sample_admin_authorized) as [_ [_ H]].
    destruct (H (mkUser 2 bar_without_grants) eq_refl)
      as [u1 [db1 [E1 [E2 [_ [_ [_ [C A]]]]]]]].
    exists u1, db1. split; [exact E1|]. split; [exact E2|].
    split; [apply (proj2 (A (fun F => F))) |].
    apply C. constructor.
Defined.

(** An unknown name, a wrong password, and a user stored without password. *)
Lemma login_user_failures_indistinguishable_witness :
  with_db_transaction (login_user "nobody" "secret") sample_db
  = (inr None, sample_db) /\
  with_db_transaction (login_user "admin" "wrong") sample_db
  = (inr None, sample_db) /\
  with_db_transaction (login_user "bar" "") sample_db
  = (inr None, sample_db).
Proof.
  split; [|split]; apply login_user_failures_indistinguishable.
  - left. reflexivity.
  - right. eexists. split; reflexivity.
  - right. eexists. split; reflexivity.
Defined.

(** A token that does not decode, the token of user 2, the administrator's
    own token, and that token once more. *)
Lemma logout_user_outcomes_witness :
  with_db_transaction (logout_user (Some sample_admin) "garbage") sample_db
  = (inr false, sample_db) /\
  with_db_transaction (logout_user (Some sample_admin) "2.1") sample_db
  = (inr false, sample_db) /\
  with_db_transaction (logout_user (Some sample_admin) "1.1") sample_db
  = (inr true, db_delete_session 1 1 sample_db) /\
  with_db_transaction (logout_user (Some sample_admin) "1.1")
    (db_delete_session 1 1 sample_db)
  = (inr false, db_delete_session 1 1 sample_db).
Proof.
  split; [|split; [|split]].
  - apply (logout_user_outcomes sample_admin "garbage" sample_db). reflexivity.
  - apply (logout_user_outcomes sample_admin "2.1" sample_db)
      with (mkUserTokenMetadata 2 1); [reflexivity | discriminate].
  - exact (proj1 (proj2 (proj2 (logout_user_outcomes sample_admin "1.1"
                                  sample_db))
                    (mkUserTokenMetadata 1 1) eq_refl eq_refl)).
  - exact (proj1 (proj2 (proj2 (logout_user_outcomes sample_admin "1.1"
                                  (db_delete_session 1 1 sample_db)))
                    (mkUserTokenMetadata 1 1) eq_refl eq_refl)).
Defined.

(** An absent id, and user 2 holding two privileges updated with one. *)
Lemma update_user_full_replace_witness :
  with_db_transaction
    (update_user (Some sample_admin) 9 bar_one_privilege) sample_db
  = (inl (NotFoundException "user" "9"), sample_db) /\
  lookup_user (db_update_user 2 bar_two_privileges sample_db) 2
  = Some (mkUser 2 bar_two_privileges) /\
  exists db',
    with_db_transaction
      (update_user (Some sample_admin) 2 bar_one_privilege)
      (db_update_user 2 bar_two_privileges sample_db)
    = (inr (mkUser 2 bar_one_privilege), db') /\
    lookup_user db' 2 = Some (mkUser 2 bar_one_privilege) /\
    (forall p, In p (privileges_of db' 2) <-> In p [finanzorga]).
Proof.
  split; [|split; [reflexivity|]].
  - apply (update_user_full_replace (Some sample_admin) 9 bar_one_privilege
             sample_db sample_admin_authorized).
    reflexivity.
  - destruct (update_user_full_replace (Some sample_admin) 2 bar_one_privilege
                (db_update_user 2 bar_two_privileges sample_db)
                sample_admin_authorized) as [_ H].
    destruct H as [db' [E [L [P _]]]]; [discriminate|].
    exists db'. repeat split; try assumption; apply P.
Defined.

(** User 2 deleted, then read. *)
Lemma delete_user_outcome_witness :
  exists db',
    with_db_transaction (delete_user (Some sample_admin) 2) sample_db
    = (inr true, db') /\
    with_db_transaction (get_user (Some sample_admin) 2) db'
    = (inl (NotFoundException "user" "2"), db').
Proof.
  destruct (delete_user_outcome (Some sample_admin) 2 sample_db
              sample_admin_authorized)
    as [deleted [db' [E [D [_ [_ G]]]]]].
  exists db'. split; [|exact G].
  rewrite E. f_equal. f_equal. apply D.
  exists (mk_usr_row 2 "bar" None None (Some 10) None None).
  split; [right; now left | reflexivity].
Defined.

(** C10 as stated fails in its last sentence: user 2, promoted to cashier
    and then to finanzorga by two separate calls, holds both privileges and
    was never passed to [create_finanzorga]. *)
Lemma finanzorga_and_cashier_by_two_promotions :
  reachable_by without_create_finanzorga sample_db sample_db_promoted_twice /\
  lookup_user sample_db_promoted_twice 2
  = Some (mkUser 2 (mkUserWithoutId "bar" None [cashier; finanzorga] (Some 10)
                      (Some 2) (Some 1))) /\
  In cashier [cashier; finanzorga] /\ In finanzorga [cashier; finanzorga].
Proof.
  split; [|split; [reflexivity|split; simpl; tauto]].
  apply (reachable_call without_create_finanzorga sample_db sample_caller
           (OpPromoteToFinanzorga 2) sample_db_promoted); [|exact I].
  apply (reachable_call without_create_finanzorga sample_db sample_caller
           (OpPromoteToCashier 2) sample_db); [apply reachable_start | exact I].
Qed.

(** User 2 promoted to finanzorga with and without [cashier], and a
    finanzorga created from a tag. *)
Lemma promote_to_finanzorga_frame_witness :
  (exists u' db',
     with_db_transaction (promote_to_finanzorga (Some sample_admin) 2)
       sample_db_promoted
     = (inr u', db') /\
     privileges u' = [cashier; finanzorga] /\
     cashier_account_id u' = Some 1 /\
     transport_account_id u' = Some 2) /\
  (exists u' db',
     with_db_transaction (promote_to_finanzorga (Some sample_admin) 2) sample_db
     = (inr u', db') /\
     privileges u' = [finanzorga] /\ cashier_account_id u' = None) /\
  (exists f db',
     with_db_transaction
       (create_finanzorga (Some 7) (Some sample_admin) (mkNewUser "baz" 5678))
       sample_db
     = (inr f, db') /\
     In cashier (privileges f) /\ In finanzorga (privileges f)).
Proof.
  split; [|split].
  - destruct (promote_to_finanzorga_frame (Some sample_admin) 2
                sample_db_promoted
                (mkUser 2 (mkUserWithoutId "bar" None [cashier] (Some 10) None
                             (Some 1)))
                sample_admin_authorized) as [H _].
    destruct H as [u' [db' [E [_ [_ [_ [_ [C [T [P _]]]]]]]]]];
      [reflexivity | simpl; intros [H|[]]; discriminate |].
    exists u', db'. repeat split; assumption.
  - destruct (promote_to_finanzorga_frame (Some sample_admin) 2 sample_db
                (mkUser 2 bar_without_grants)
                sample_admin_authorized) as [H _].
    destruct H as [u' [db' [E [_ [_ [_ [_ [C [_ [P _]]]]]]]]]];
      [reflexivity | intros [] |].
    exists u', db'. repeat split; assumption.
  - apply (promote_to_finanzorga_frame (Some sample_admin) 0 sample_db
             sample_admin sample_admin_authorized); discriminate.
Defined.

(** ** The further properties on the small installation *)

Lemma sample_db_unique_ids : unique_ids sample_db.
Proof.
  unfold unique_ids. simpl. repeat constructor; simpl; intuition discriminate.
Qed.

(** An administrator creates [alice] and reads her back. *)
Lemma create_user_returns_payload_witness :
  exists db',
    with_db_transaction (create_user (Some sample_admin) alice (Some "pw"))
      sample_db
    = (inr (mkUser 3 alice), db') /\
    with_db_transaction (get_user (Some sample_admin) 3) db'
    = (inr (mkUser 3 alice), db') /\
    users db' = (users sample_db ++ [mkUser 3 alice])%list.
Proof.
  destruct (create_user_returns_payload (Some sample_admin) alice (Some "pw")
              sample_db sample_admin_authorized sample_db_wf)
    as [db' [E [_ [_ [G [L _]]]]]].
  exists db'. repeat split; assumption.
Defined.

(** [alice], created with a password, logs in with it. *)
Lemma create_user_then_login_witness :
  exists db1,
    with_db_transaction (create_user (Some sample_admin) alice (Some "pw"))
      sample_db
    = (inr (mkUser 3 alice), db1) /\
    with_db_transaction (login_user "alice" "pw") db1
    = (inr (Some (mkUserLoginSuccess (mkUser 3 alice) "3.2")),
       db_create_session 3 db1).
Proof.
  exact (create_user_then_login (Some sample_admin) alice "pw" sample_db
           sample_admin_authorized sample_db_wf
           ltac:(discriminate) eq_refl eq_refl).
Defined.

(** The administrator logs in and out, and out again. *)
Lemma login_then_logout_witness :
  exists s db1 db2,
    with_db_transaction (login_user "admin" "secret") sample_db_closed
    = (inr (Some s), db1) /\
    user s = sample_admin /\
    usr_session db1 = [mk_usr_session_row 1 1] /\
    with_db_transaction (logout_user (Some (user s)) (token s)) db1
    = (inr true, db2) /\
    usr_session db2 = [] /\
    users db2 = users sample_db_closed /\
    with_db_transaction (logout_user (Some (user s)) (token s)) db2
    = (inr false, db2).
Proof.
  destruct (login_then_logout (pwd_context := sample_pwd_context)
              (auth_service := sample_auth_service)
              "admin" "secret" sample_db_closed sample_admin_row
              (fun s (H : In s []) => match H with end) eq_refl eq_refl eq_refl)
    as [s [db1 [db2 [E1 [Us [S1 [E2 [S2 [U2 E3]]]]]]]]].
  exists s, db1, db2. rewrite Us in S1.
  repeat split; assumption.
Defined.

(** An absent id, and user 2 linked to account 5. *)
Lemma link_user_to_account_relinks_witness :
  with_db_transaction
    (link_user_to_cashier_account (Some sample_admin) 9 5) sample_db
  = (inr false, sample_db) /\
  exists dbc dbt,
    with_db_transaction
      (link_user_to_cashier_account (Some sample_admin) 2 5) sample_db
    = (inr true, dbc) /\
    lookup_user dbc 2
    = Some (mkUser 2 (mkUserWithoutId "bar" None [] (Some 10) None (Some 5))) /\
    with_db_transaction
      (link_user_to_transport_account (Some sample_admin) 2 5) sample_db
    = (inr true, dbt) /\
    lookup_user dbt 2
    = Some (mkUser 2 (mkUserWithoutId "bar" None [] (Some 10) (Some 5) None)).
Proof.
  split.
  - apply (link_user_to_account_relinks (Some sample_admin) 9 5 sample_db
             sample_admin_authorized).
    reflexivity.
  - destruct (link_user_to_account_relinks (Some sample_admin) 2 5 sample_db
                sample_admin_authorized) as [_ H].
    destruct (H (mkUser 2 bar_without_grants) eq_refl)
      as [dbc [dbt [Ec [Lc [Et [Lt _]]]]]].
    exists dbc, dbt. repeat split; assumption.
Defined.

(** The two stored users listed, user 2 read, and id 9 not found. *)
Lemma list_users_and_get_user_agree_witness :
  with_db_transaction (list_users (Some sample_admin)) sample_db
  = (inr [sample_admin; mkUser 2 bar_without_grants], sample_db) /\
  with_db_transaction (get_user (Some sample_admin) 9) sample_db
  = (inl (NotFoundException "user" "9"), sample_db).
Proof.
  split.
  - exact (proj1 (list_users_and_get_user_agree (Some sample_admin) 2 sample_db
                    sample_admin_authorized)).
  - destruct (list_users_and_get_user_agree (Some sample_admin) 9 sample_db
                sample_admin_authorized) as [_ [[u [_ [U I]]] | [E _]]].
    + exfalso. vm_compute in U. destruct U as [<-|[<-|[]]]; discriminate I.
    + exact E.
Defined.

(** User 2 deleted: the administrator stays. *)
Lemma delete_user_frame_witness :
  exists deleted db',
    with_db_transaction (delete_user (Some sample_admin) 2) sample_db
    = (inr deleted, db') /\
    users db' = [sample_admin] /\
    lookup_user db' 1 = Some sample_admin /\
    usr_session db' = usr_session sample_db.
Proof.
  destruct (delete_user_frame (Some sample_admin) 2 sample_db
              sample_admin_authorized)
    as [deleted [db' [E [Us [L [S _]]]]]].
  exists deleted, db'. split; [exact E|]. split; [exact Us|].
  split; [|exact S]. rewrite L; [reflexivity | discriminate].
Defined.

(** An absent id, and user 2 promoted to finanzorga twice. *)
Lemma promote_to_finanzorga_idempotent_witness :
  with_db_transaction (promote_to_finanzorga (Some sample_admin) 9) sample_db
  = (inl (NotFoundException "user" "9"), sample_db) /\
  exists u1 db1,
    with_db_transaction (promote_to_finanzorga (Some sample_admin) 2) sample_db
    = (inr u1, db1) /\
    with_db_transaction (promote_to_finanzorga (Some sample_admin) 2) db1
    = (inr u1, db1) /\
    In finanzorga (privileges u1).
Proof.
  split.
  - apply (promote_to_finanzorga_idempotent (Some sample_admin) 9 sample_db
             sample_admin_authorized).
    reflexivity.
  - destruct (promote_to_finanzorga_idempotent (Some sample_admin) 2 sample_db
                sample_admin_authorized) as [_ [_ H]].
    destruct (H (mkUser 2 bar_without_grants) eq_refl)
      as [u1 [db1 [E1 [E2 [_ [F _]]]]]].
    exists u1, db1. repeat split; assumption.
Defined.

(** A deletion creates no account and touches no session; a login leaves the
    rows of [usr]. *)
Lemma exec_frame_witness :
  account (exec sample_caller (OpDeleteUser 2) sample_db) = account sample_db /\
  usr_session (exec sample_caller (OpDeleteUser 2) sample_db)
  = usr_session sample_db /\
  usr (exec sample_caller (OpLoginUser "admin" "secret") sample_db)
  = usr sample_db.
Proof.
  destruct (exec_frame sample_caller (OpDeleteUser 2) sample_db)
    as [_ [[created [A N]] [S _]]].
  split; [|split].
  - rewrite A, (N (fun P => P)). apply app_nil_r.
  - exact (S (fun P => P)).
  - exact (proj1 (proj2 (proj2 (proj2
             (exec_frame sample_caller (OpLoginUser "admin" "secret")
                sample_db))) I)).
Defined.

(** The administrator's row after an update of its other columns. *)
Lemma stored_passwords_never_change_witness :
  exists r,
    In r (usr sample_db) /\ usr_id r = 1 /\
    usr_password r = Some "$2b$secret".
Proof.
  apply (stored_passwords_never_change sample_db
           (exec sample_caller (OpUpdateUser 1 alice) sample_db)
           (mk_usr_row 1 "alice" (Some "orga") (Some "$2b$secret") None
              (Some 8) None)).
  - apply reachable_call; [apply reachable_start | exact I].
  - left. reflexivity.
  - reflexivity.
Defined.

(** User 2, who holds no privilege, tries to delete the administrator. *)
Lemma admin_operations_refuse_others_witness :
  exec (mkCaller (Some sample_non_admin) None) (OpDeleteUser 1) sample_db
  = sample_db /\
  with_db_transaction (delete_user (Some sample_non_admin) 1) sample_db
  = (inl PermissionDenied, sample_db).
Proof.
  destruct (admin_operations_refuse_others
              (mkCaller (Some sample_non_admin) None) (OpDeleteUser 1)
              sample_db alice None (mkNewUser "baz" 5678) 1 5)
    as [E [_ [_ [D _]]]].
  - intros u [= <-]. reflexivity.
  - split; [exact (E I) | exact D].
Defined.

(** A deletion followed by a creation. *)
Lemma user_ids_stay_unique_witness :
  wf_db (exec sample_caller (OpCreateUser alice None)
           (exec sample_caller (OpDeleteUser 2) sample_db)) /\
  unique_ids (exec sample_caller (OpCreateUser alice None)
                (exec sample_caller (OpDeleteUser 2) sample_db)).
Proof.
  apply (user_ids_stay_unique sample_db _ sample_db_wf sample_db_unique_ids).
  apply reachable_call; [|exact I].
  apply reachable_call; [apply reachable_start | exact I].
Defined.

(** Tag 5678 scanned twice at a terminal, under two names. *)
Lemma terminal_creation_rescan_witness :
  (exists u db1,
     with_db_transaction
       (create_cashier (Some 7) (Some sample_admin) (mkNewUser "baz" 5678))
       sample_db
     = (inr u, db1) /\
     user_tag_id u = Some 11 /\ In cashier (privileges u) /\
     with_db_transaction
       (create_cashier (Some 7) (Some sample_admin) (mkNewUser "qux" 5678)) db1
     = (inr u, db1)) /\
  (exists u db1,
     with_db_transaction
       (create_finanzorga (Some 7) (Some sample_admin) (mkNewUser "baz" 5678))
       sample_db
     = (inr u, db1) /\
     user_tag_id u = Some 11 /\
     In cashier (privileges u) /\ In finanzorga (privileges u) /\
     with_db_transaction
       (create_finanzorga (Some 7) (Some sample_admin) (mkNewUser "qux" 5678))
       db1
     = (inr u, db1)).
Proof.
  apply (terminal_creation_rescan (Some 7) (Some sample_admin)
           (mkNewUser "baz" 5678) (mkNewUser "qux" 5678) sample_db 11
           sample_admin_authorized).
  - discriminate.
  - exact sample_db_wf.
  - exact sample_db_unique_ids.
  - reflexivity.
  - reflexivity.
Defined.

(** User 2 promoted to cashier. *)
Lemma promote_to_cashier_frame_witness :
  exists u' db',
    with_db_transaction (promote_to_cashier (Some sample_admin) 2) sample_db
    = (inr u', db') /\
    name u' = "bar" /\ user_tag_id u' = Some 10 /\
    privileges u' = [cashier] /\ cashier_account_id u' = Some 1 /\
    lookup_user db' 1 = Some sample_admin.
Proof.
  destruct (promote_to_cashier_frame (Some sample_admin) 2 sample_db
              (mkUser 2 bar_without_grants) sample_admin_authorized eq_refl
              (fun F => F))
    as [u' [db' [E [_ [N [_ [T [_ [C [P [_ [_ O]]]]]]]]]]]].
  exists u', db'. rewrite (O 1) by discriminate.
  repeat split; assumption.
Defined.

(** Tag 1234 is bound to user 2, tag 5678 to nobody. *)
Lemma create_user_with_tag_binds_once_witness :
  (exists u db',
     with_db_transaction
       (create_user_with_tag (Some sample_admin) (mkNewUser "other" 1234))
       sample_db
     = (inr u, db') /\
     List.length (filter (bound_to 10) (usr db')) = 1%nat) /\
  (exists u db',
     with_db_transaction
       (create_user_with_tag (Some sample_admin) (mkNewUser "baz" 5678))
       sample_db
     = (inr u, db') /\
     List.length (filter (bound_to 11) (usr db')) = 1%nat /\
     List.length (filter (bound_to 10) (usr db')) = 1%nat).
Proof.
  split.
  - destruct (create_user_with_tag_binds_once (Some sample_admin)
                (mkNewUser "other" 1234) sample_db 10
                sample_admin_authorized eq_refl) as [u [db' [E [C _]]]].
    exists u, db'. split; [exact E | exact C].
  - destruct (create_user_with_tag_binds_once (Some sample_admin)
                (mkNewUser "baz" 5678) sample_db 11
                sample_admin_authorized eq_refl) as [u [db' [E [C O]]]].
    exists u, db'. split; [exact E|]. split; [exact C|].
    rewrite (O 10) by discriminate. reflexivity.
Defined.

(** A call without terminal, and an unknown tag at terminal 7. *)
Lemma terminal_creation_errors_witness :
  with_db_transaction
    (create_cashier None (Some sample_admin) (mkNewUser "baz" 5678)) sample_db
  = (inl PermissionDenied, sample_db) /\
  with_db_transaction
    (create_finanzorga (Some 7) (Some sample_admin) (mkNewUser "baz" 999))
    sample_db
  = (inl (NotFoundException "user_tag" "999"), sample_db).
Proof.
  split.
  - exact (proj1 (proj1 (terminal_creation_errors None (Some sample_admin)
                          (mkNewUser "baz" 5678) sample_db) eq_refl)).
  - exact (proj2 (proj2 (terminal_creation_errors (Some 7) (Some sample_admin)
                          (mkNewUser "baz" 999) sample_db)
                    sample_admin_authorized ltac:(discriminate) eq_refl)).
Defined.
